(** * Clippy: the consciousness-representation and graph-construction engine

    A shallow embedding of
      - [src/ai-model.py]       : [ActiveHashedInteractionNetwork]
                                  ([hash_function], [memory_access], [forward]);
      - [src/ai-data-processing.py] : the [MultiModalDataProcessor]
                                  ([process_text], [process_json],
                                  [_flatten_json], [_json_to_features],
                                  [process_file], [combine_features]);
      - [src/data-manager-complete.py] : the [DataManager];
      - [src/unnamed/part_000]  : the tail of the [ConsciousnessNetwork] class
                                  ([extract_consciousness_representation],
                                  [generate_consciousness_graph],
                                  [_determine_data_type], [_get_node_by_id],
                                  [save_to_file], [load_from_file]).

    Conventions.
      - Python floats are idealised as exact rationals [Q]; 64-bit integer
        tensors are [Z] with the wrap-around written out ([wrap64]).
      - A tensor (torch or numpy) is its size list together with its row-major
        storage.
      - Python exceptions are the [Raise] branch of [result]; stateful code
        runs in the state-and-exception monad [M], in which a raised
        exception keeps the mutations made before it.
      - The random generator, the builder's [nodes]/[edges] fields and the
        file system are explicit state. The graph-building methods run on
        the nodes and edges that [add_node] and [add_edge] make ([World]);
        the methods that take the two fields as they are ([save_to_file],
        [load_from_file], [_get_node_by_id]) run on the fields as Python
        values ([Builder]).
      - The network's layers are functions; the two that hold dropout run on
        the generator, which they leave alone in evaluation mode.
      - [add_node], [add_edge] and [query_similar_nodes] are called by
        [part_000] but defined in no source file; they are modelled from the
        spec and marked so. *)

From Stdlib Require Import ZArith QArith Lia.
From stdpp Require Import base option list sorting strings pretty gmap.

Local Open Scope Z_scope.

(** ** Exceptions and the state monad *)

Inductive PyError : Type :=
  | ValueError | TypeError | AttributeError | IndexError | KeyError
  | RuntimeError | ZeroDivisionError | JSONDecodeError | FileNotFoundError
  | IsADirectoryError | PermissionError.

Inductive result (A : Type) : Type :=
  | Ok (a : A)
  | Raise (e : PyError).
Arguments Ok {A} a.
Arguments Raise {A} e.

Definition is_ok {A} (r : result A) : bool :=
  match r with Ok _ => true | Raise _ => false end.

Definition rbind {A B} (r : result A) (k : A -> result B) : result B :=
  match r with Ok a => k a | Raise e => Raise e end.

(** [M S A]: a computation over a mutable state [S] that returns an [A] or
    raises; the state at the time of the exception is kept. *)
Definition M (S A : Type) : Type := S -> result A * S.

Definition ret {S A} (a : A) : M S A := fun s => (Ok a, s).
Definition raise {S A} (e : PyError) : M S A := fun s => (Raise e, s).
Definition bind {S A B} (m : M S A) (k : A -> M S B) : M S B :=
  fun s => match m s with
           | (Ok a, s') => k a s'
           | (Raise e, s') => (Raise e, s')
           end.
Definition lift_result {S A} (r : result A) : M S A := fun s => (r, s).
Definition get {S} : M S S := fun s => (Ok s, s).
Definition modify {S} (f : S -> S) : M S unit := fun s => (Ok tt, f s).

Declare Scope py_scope.
Delimit Scope py_scope with py.
Notation "x <- m ;; k" := (bind m (fun x => k))
  (at level 100, m at next level, right associativity) : py_scope.
Notation "m ;;; k" := (bind m (fun _ => k))
  (at level 100, right associativity) : py_scope.
Local Open Scope py_scope.

(** [for x in xs: body x] *)
Fixpoint for_each {S A} (xs : list A) (body : A -> M S unit) : M S unit :=
  match xs with
  | [] => ret tt
  | x :: xs' => body x ;;; for_each xs' body
  end.

(** [[f(x) for x in xs]] where [f] may raise. *)
Definition map_result {A B} (f : A -> result B) : list A -> result (list B) :=
  fix go (xs : list A) : result (list B) :=
    match xs with
    | [] => Ok []
    | x :: xs' => rbind (f x) (fun y => rbind (go xs') (fun ys => Ok (y :: ys)))
    end.

(** ** Tensors *)

Record Tensor (A : Type) : Type := mkTensor {
  shape : list nat;
  data : list A
}.
Arguments mkTensor {A} shape data.
Arguments shape {A} t.
Arguments data {A} t.

Definition numel (s : list nat) : nat := foldr Nat.mul 1%nat s.

(** [rows d n l]: the [n] consecutive length-[d] rows of a row-major storage. *)
Definition rows {A} (d n : nat) (l : list A) : list (list A) :=
  map (fun r => take d (drop (r * d) l)) (seq 0 n).

(** [t.unsqueeze(0)] *)
Definition unsqueeze0 {A} (t : Tensor A) : Tensor A :=
  mkTensor (1%nat :: shape t) (data t).

(** [t.squeeze()]: every dimension of size one is dropped. *)
Definition squeeze {A} (t : Tensor A) : Tensor A :=
  mkTensor (List.filter (fun n => negb (Nat.eqb n 1)) (shape t)) (data t).

(** [for sub in t]: iteration over the first dimension. *)
Definition iter_tensor {A} (t : Tensor A) : result (list (Tensor A)) :=
  match shape t with
  | [] => Raise TypeError
  | n :: s => Ok (map (mkTensor s) (rows (numel s) n (data t)))
  end.

Definition shape_eqb (s1 s2 : list nat) : bool := bool_decide (s1 = s2).

(** [np.stack(ts)] / [torch.stack(ts)] along a new first axis. *)
Definition stack {A} (ts : list (Tensor A)) : result (Tensor A) :=
  match ts with
  | [] => Raise ValueError
  | t0 :: _ =>
      if forallb (fun t => shape_eqb (shape t) (shape t0)) ts
      then Ok (mkTensor (length ts :: shape t0) (concat (map data ts)))
      else Raise ValueError
  end.

(** [np.zeros(n)] *)
Definition zeros (n : nat) : Tensor Q := mkTensor [n] (replicate n 0%Q).

Definition Qsum (l : list Q) : Q := foldr Qplus 0%Q l.
Definition dot (a b : list Q) : Q := Qsum (zip_with Qmult a b).

(** [torch.matmul(x, m)] for [x] of size [(..., d)] and a matrix [m] of size
    [(d, n)]: every length-[d] row of [x] is multiplied with [m]. *)
Definition column (n j : nat) (m : list Q) (d : nat) : list Q :=
  map (fun k => nth (k * n + j)%nat m 0%Q) (seq 0 d).

Definition matmul (x : Tensor Q) (m : Tensor Q) : result (Tensor Q) :=
  match reverse (shape x), shape m with
  | d :: lead, [d'; n] =>
      if Nat.eqb d d'
      then Ok (mkTensor (reverse lead ++ [n])
                 (concat (map (fun row => map (fun j => dot row (column n j (data m) d)) (seq 0 n))
                              (rows d (numel lead) (data x)))))
      else Raise RuntimeError
  | _, _ => Raise RuntimeError
  end.

(** ** [ai-model.py]: the random generator *)

(** The state of torch's default generator: an endless sequence of normal
    samples and the number already consumed. *)
Record Gen : Type := mkGen {
  samples : nat -> Q;
  consumed : nat
}.

(** [torch.randn(r, c)] *)
Definition randn (r c : nat) : M Gen (Tensor Q) :=
  fun g =>
    (Ok (mkTensor [r; c] (map (fun k => samples g (consumed g + k)%nat) (seq 0 (r * c)))),
     mkGen (samples g) (consumed g + r * c)).

(** ** [ai-model.py]: [hash_function] *)

(** Two's-complement wrap-around of a 64-bit integer ([torch.long]). *)
Definition wrap64 (z : Z) : Z := (z + 2 ^ 63) mod 2 ^ 64 - 2 ^ 63.

(** [(projection > 0).float()] *)
Definition binarize (p : Q) : Q := if Qle_bool p 0 then 0%Q else 1%Q.

Definition power : list Q := [1; 2; 4; 8; 16; 32; 64; 128]%Q.

(** [.long()] on a float holding an integer value: truncation. *)
Definition to_long (q : Q) : Z := Z.quot (Qnum q) (Z.pos (Qden q)).

(** [(binary[:, :, i:i+8] * power).sum(dim=-1).long()] on one row of bits. *)
Definition fold_segment (i : nat) (bits : list Q) : Z :=
  to_long (Qsum (zip_with Qmult (take 8 (drop i bits)) power)).

(** One step of [combined = (combined * 256 + idx) % self.hash_size],
    element-wise. *)
Definition combine_step (hash_size : Z) (combined idx : list Z) : list Z :=
  zip_with (fun c d => wrap64 (c * 256 + d) mod hash_size) combined idx.

(** [hash_function]: a projection onto 32 directions drawn from the
    generator at the time of the call, binarized by sign, folded into four
    base-256 digits and combined modulo [hash_size]. *)
Definition hash_function (hash_size : Z) (x : Tensor Q) : M Gen (Tensor Z) :=
  match last (shape x) with
  | None => raise IndexError                      (* x.size(-1) on a 0-d tensor *)
  | Some d =>
      basis <- randn d 32 ;;
      projection <- lift_result (matmul x basis) ;;
      let binary := map binarize (data projection) in
      match shape x with
      | [b; s; _] =>
          let indices :=
            map (fun i => map (fold_segment i) (rows 32 (b * s) binary)) [0; 8; 16; 24]%nat in
          match indices with
          | first :: others =>
              if Z.eqb hash_size 0 then raise ZeroDivisionError
              else ret (mkTensor [b; s] (foldl (combine_step hash_size) first others))
          | [] => raise IndexError                 (* indices[0] *)
          end
      | [] | [_] | [_; _] => raise IndexError      (* binary[:, :, i:i+8] *)
      | _ => raise RuntimeError                    (* segment * power does not broadcast *)
      end
  end.

(** [nn.Embedding]: a row lookup per index; an index outside the table
    raises [IndexError]. *)
Definition embedding_row (weight : list (list Q)) (z : Z) : result (list Q) :=
  if (0 <=? z) && (z <? Z.of_nat (length weight))
  then match weight !! Z.to_nat z with
       | Some row => Ok row
       | None => Raise IndexError
       end
  else Raise IndexError.

Definition embedding (weight : list (list Q)) (hidden_dim : nat) (idx : Tensor Z)
  : result (Tensor Q) :=
  rbind (map_result (embedding_row weight) (data idx))
        (fun rs => Ok (mkTensor (shape idx ++ [hidden_dim]) (concat rs))).

(** ** Tensor reshuffling used by [forward] *)

(** The [n]-th block of [k] consecutive entries. *)
Definition block {A} (k n : nat) (l : list A) : list A := take k (drop (n * k) l).

(** [t.transpose(0, 1)] *)
Definition transpose01 {A} (t : Tensor A) : result (Tensor A) :=
  match shape t with
  | a :: b :: rest =>
      Ok (mkTensor (b :: a :: rest)
            (concat (map (fun j => concat (map (fun i => block (numel rest) (i * b + j) (data t))
                                               (seq 0 a)))
                         (seq 0 b))))
  | _ => Raise IndexError
  end.

Definition Qscale (c : Q) (l : list Q) : list Q := map (Qmult c) l.
Definition vec_add (a b : list Q) : list Q := zip_with Qplus a b.

(** [t.mean(dim=1, keepdim=keep)] (over an empty dimension torch answers
    NaN; the rational quotient by zero is 0). *)
Definition mean_dim1 (keep : bool) (t : Tensor Q) : result (Tensor Q) :=
  match shape t with
  | a :: s :: rest =>
      let k := numel rest in
      Ok (mkTensor (if keep then a :: 1%nat :: rest else a :: rest)
            (concat (map (fun i =>
                       Qscale (/ inject_Z (Z.of_nat s))
                         (foldr vec_add (replicate k 0%Q)
                            (map (fun j => block k (i * s + j) (data t)) (seq 0 s))))
                     (seq 0 a))))
  | _ => Raise IndexError
  end.

(** [torch.cat([u, v], dim=1)] *)
Definition cat_dim1 {A} (u v : Tensor A) : result (Tensor A) :=
  match shape u, shape v with
  | a :: s1 :: rest, a' :: s2 :: rest' =>
      if shape_eqb (a :: rest) (a' :: rest')
      then Ok (mkTensor (a :: (s1 + s2)%nat :: rest)
                 (concat (map (fun i => block (s1 * numel rest) i (data u)
                                         ++ block (s2 * numel rest) i (data v))
                              (seq 0 a))))
      else Raise RuntimeError
  | _, _ => Raise IndexError
  end.

(** [t[:, 0]] *)
Definition select_first {A} (t : Tensor A) : result (Tensor A) :=
  match shape t with
  | a :: S s :: rest =>
      Ok (mkTensor (a :: rest)
            (concat (map (fun i => block (numel rest) (i * S s) (data t)) (seq 0 a))))
  | _ => Raise IndexError
  end.

(** [t.squeeze(1)] *)
Definition squeeze1 {A} (t : Tensor A) : result (Tensor A) :=
  match shape t with
  | a :: 1%nat :: rest => Ok (mkTensor (a :: rest) (data t))
  | _ :: _ :: _ => Ok t
  | _ => Raise IndexError
  end.

(** [u + v] for operands of one size (the only case [forward] produces). *)
Definition tensor_add (u v : Tensor Q) : result (Tensor Q) :=
  if shape_eqb (shape u) (shape v)
  then Ok (mkTensor (shape u) (vec_add (data u) (data v)))
  else Raise RuntimeError.

(** [torch.ones((b, 1))] *)
Definition ones_col (b : nat) : Tensor Q := mkTensor [b; 1%nat] (replicate b 1%Q).

(** ** [ai-model.py]: the network *)

(** The numeric library functions that have no rational counterpart. *)
Record Numerics : Type := {
  np_sqrt : Q -> Q;                              (* np.sqrt *)
  softmax_last : Tensor Q -> Tensor Q;           (* F.softmax(_, dim=-1) *)
  normalize_l2 : Tensor Q -> Tensor Q            (* F.normalize(_, p=2, dim=0) *)
}.

(** The fields of an [ActiveHashedInteractionNetwork] instance; the [nn]
    layers are the functions they compute with their learned weights.
    [nn.Dropout] and the dropout inside [nn.TransformerEncoder] depend on
    the module's mode: in evaluation mode they return without touching
    torch's generator, in training mode they draw their masks from it; so
    these two layers run on the generator. *)
Record AHIN : Type := {
  input_dim : nat;
  hidden_dim : nat;
  output_dim : nat;
  hash_size : Z;
  num_layers : nat;
  input_projection : Tensor Q -> result (Tensor Q);
  hash_embedding : list (list Q);
  activation : Tensor Q -> Tensor Q;
  transformer_encoder : Tensor Q -> option (Tensor bool) -> M Gen (Tensor Q);
  output_projection : Tensor Q -> result (Tensor Q);
  memory_key : Tensor Q;
  memory_value : Tensor Q;
  query_generator : Tensor Q -> result (Tensor Q);
  dropout : Tensor Q -> M Gen (Tensor Q)
}.

(** A torch tensor is a float or a long tensor. *)
Inductive torchval : Type :=
  | TFloat (t : Tensor Q)
  | TLong (t : Tensor Z).

(** What a call of the model can hand back in one position of its result
    tuple: a tensor, or a [dict] from names to tensors. *)
Inductive pyval : Type :=
  | PTensor (v : torchval)
  | PDict (d : list (string * torchval)).

Definition memory_access (lib : Numerics) (self : AHIN) (query : Tensor Q)
  : result (Tensor Q) :=
  rbind (transpose01 (memory_key self)) (fun keys_t =>
  rbind (matmul query keys_t) (fun attn_weights =>
  let attn_weights :=
    softmax_last lib
      (mkTensor (shape attn_weights)
         (Qscale (/ np_sqrt lib (inject_Z (Z.of_nat (hidden_dim self)))) (data attn_weights))) in
  matmul attn_weights (memory_value self))).

Definition forward (lib : Numerics) (self : AHIN)
    (features : Tensor Q) (attention_mask : option (Tensor Q))
  : M Gen (Tensor Q * list (string * torchval)) :=
  match shape features with
  | [batch_size; seq_len; _] =>
      projected <- lift_result (input_projection self features) ;;
      projected <- dropout self (activation self projected) ;;
      hash_indices <- hash_function (hash_size self) features ;;
      hash_embed <- lift_result (embedding (hash_embedding self) (hidden_dim self) hash_indices) ;;
      combined <- lift_result (tensor_add projected hash_embed) ;;
      pooled <- lift_result (mean_dim1 true combined) ;;
      query <- lift_result (query_generator self pooled) ;;
      let query := activation self query in
      memory_output <- lift_result (memory_access lib self query) ;;
      enhanced <- lift_result (cat_dim1 memory_output combined) ;;
      transformer_input <- lift_result (transpose01 enhanced) ;;
      transformer_mask <-
        lift_result
          match attention_mask with
          | Some mask =>
              rbind (cat_dim1 (ones_col batch_size) mask) (fun extended_mask =>
              Ok (Some (mkTensor (shape extended_mask)
                          (map (fun m => Qeq_bool m 0) (data extended_mask)))))
          | None => Ok None
          end ;;
      transformed <- transformer_encoder self transformer_input transformer_mask ;;
      transformed <- lift_result (transpose01 transformed) ;;
      representation <- lift_result (select_first transformed) ;;
      output <- lift_result (output_projection self representation) ;;
      attention_weights <- lift_result (mean_dim1 false transformed) ;;
      memory_query <- lift_result (squeeze1 query) ;;
      ret (output,
           [("hash_indices", TLong hash_indices);
            ("attention_weights", TFloat attention_weights);
            ("memory_query", TFloat memory_query)])
  | _ => raise ValueError           (* batch_size, seq_len, _ = features.shape *)
  end.

(** ** [ai-data-processing.py]: [combine_features] *)

(** [torch.cat(ts, dim=0)] *)
Definition cat_dim0 {A} (ts : list (Tensor A)) : result (Tensor A) :=
  match ts with
  | [] => Raise RuntimeError
  | t0 :: _ =>
      match shape t0 with
      | [] => Raise RuntimeError
      | _ :: rest =>
          if forallb (fun t => shape_eqb (tail (shape t)) rest
                               && negb (Nat.eqb (length (shape t)) 0)) ts
          then Ok (mkTensor (foldr Nat.add 0%nat (map (fun t => hd 0%nat (shape t)) ts) :: rest)
                            (concat (map data ts)))
          else Raise RuntimeError
      end
  end.

(** The path that prepares model input from feature arrays: every
    one-dimensional array gets a sequence dimension, the arrays are joined
    along it, and a batch dimension is added. *)
Definition combine_features (features_list : list (Tensor Q)) : result (Tensor Q) :=
  let padded_tensors :=
    map (fun tensor => if Nat.eqb (length (shape tensor)) 1 then unsqueeze0 tensor else tensor)
        features_list in
  rbind (cat_dim0 padded_tensors) (fun combined => Ok (unsqueeze0 combined)).

(** ** [part_000]: Python data handled by the [ConsciousnessNetwork] *)

#[local] Set Warnings "-register-all".

(** The values a user data item ([Dict[str, Any]]) is made of. *)
Inductive pyobj : Type :=
  | PyNone
  | PyBool (b : bool)
  | PyInt (z : Z)
  | PyFloat (q : Q)
  | PyStr (s : string)
  | PyBytes (b : string)
  | PyList (l : list pyobj)
  | PyTuple (l : list pyobj)
  | PyDict (d : list (string * pyobj)).

(** A [dict] with string keys, in insertion order. *)
Definition pydict : Type := list (string * pyobj).

(** [k in d] *)
Definition key_in (k : string) (d : pydict) : bool :=
  existsb (fun kv => String.eqb (fst kv) k) d.

(** [d.get(k)] *)
Definition dict_get (k : string) (d : pydict) : option pyobj :=
  snd <$> List.find (fun kv => String.eqb (fst kv) k) d.

Definition _determine_data_type (data_item : pydict) : string :=
  if key_in "text" data_item then "text_data"
  else if key_in "image" data_item then "image_data"
  else if key_in "audio" data_item then "audio_data"
  else if forallb (fun k => key_in k data_item) ["text"; "image"] then "multimodal_data"
  else "generic_data".

(** Nodes and edges are the dicts of the data model: a node is
    [{id, kind, attributes, embedding}], an edge is
    [{source_id, dest_id, kind, weight, attributes}]. *)
Record GraphNode : Type := mkNode {
  n_id : string;
  n_kind : string;
  n_attributes : pydict;
  n_embedding : list Q
}.

Record GraphEdge : Type := mkEdge {
  e_source : string;
  e_dest : string;
  e_kind : string;
  e_weight : Q;
  e_attributes : pydict
}.

(** One entry of the ranked answer of [query_similar_nodes]:
    [{id, similarity_score, node fields}]. *)
Record SimilarNode : Type := mkSimilar {
  sim_id : string;
  similarity_score : Q;
  sim_node : GraphNode
}.

(** The dict returned by [generate_consciousness_graph]. *)
Record Graph : Type := mkGraph {
  consciousness_vector : Tensor Q;
  g_nodes : list GraphNode;
  g_edges : list GraphEdge
}.

(** ** JSON documents, at the level of the JSON data model *)

Inductive json : Type :=
  | JNull
  | JBool (b : bool)
  | JInt (z : Z)
  | JFloat (q : Q)
  | JStr (s : string)
  | JArr (l : list json)
  | JObj (l : list (string * json)).

(** What a path of the file system stands for: a file that holds a JSON
    document, as [open(path, 'w')] followed by [json.dump] leaves it; a file
    that holds a truncated text, as they leave it when the dump raised
    half-way; or a path that [open] refuses with an [OSError] (a directory,
    a path below a missing directory, a file the process may not touch). A
    path that stands for nothing is a file that does not exist yet in a
    directory that does. *)
Inductive file_content : Type :=
  | FDoc (j : json)
  | FTruncated
  | FRefused (e : PyError).

(** [json.dump]: lists and tuples both become arrays, a value with no JSON
    counterpart raises [TypeError]. *)
Fixpoint json_dump (v : pyobj) : result json :=
  match v with
  | PyNone => Ok JNull
  | PyBool b => Ok (JBool b)
  | PyInt z => Ok (JInt z)
  | PyFloat q => Ok (JFloat q)
  | PyStr s => Ok (JStr s)
  | PyBytes _ => Raise TypeError
  | PyList l | PyTuple l => rbind (map_result json_dump l) (fun js => Ok (JArr js))
  | PyDict d =>
      rbind (map_result (fun kv : string * pyobj => let (k, x) := kv in
                                   rbind (json_dump x) (fun j => Ok (k, j))) d)
            (fun js => Ok (JObj js))
  end.

(** [json.load] *)
Fixpoint json_load (j : json) : pyobj :=
  match j with
  | JNull => PyNone
  | JBool b => PyBool b
  | JInt z => PyInt z
  | JFloat q => PyFloat q
  | JStr s => PyStr s
  | JArr l => PyList (map json_load l)
  | JObj l => PyDict (map (fun kv => (fst kv, json_load (snd kv))) l)
  end.

(** The values [json.load] can produce: no tuple and no bytes inside. *)
Fixpoint json_native (v : pyobj) : bool :=
  match v with
  | PyNone | PyBool _ | PyInt _ | PyFloat _ | PyStr _ => true
  | PyBytes _ | PyTuple _ => false
  | PyList l => forallb json_native l
  | PyDict d => forallb (fun kv => json_native (snd kv)) d
  end.

(** Induction over Python values, through the lists they nest. *)
Section pyobj_induction.
Variable P : pyobj -> Prop.
Hypothesis HNone : P PyNone.
Hypothesis HBool : forall b, P (PyBool b).
Hypothesis HInt : forall z, P (PyInt z).
Hypothesis HFloat : forall q, P (PyFloat q).
Hypothesis HStr : forall s, P (PyStr s).
Hypothesis HBytes : forall b, P (PyBytes b).
Hypothesis HList : forall l, Forall P l -> P (PyList l).
Hypothesis HTuple : forall l, Forall P l -> P (PyTuple l).
Hypothesis HDict : forall d, Forall (fun kv => P (snd kv)) d -> P (PyDict d).

Fixpoint pyobj_nested_ind (v : pyobj) : P v :=
  match v with
  | PyNone => HNone
  | PyBool b => HBool b
  | PyInt z => HInt z
  | PyFloat q => HFloat q
  | PyStr s => HStr s
  | PyBytes b => HBytes b
  | PyList l =>
      HList l ((fix go (l : list pyobj) : Forall P l :=
                  match l with
                  | [] => @List.Forall_nil _ P
                  | x :: r => @List.Forall_cons _ P x r (pyobj_nested_ind x) (go r)
                  end) l)
  | PyTuple l =>
      HTuple l ((fix go (l : list pyobj) : Forall P l :=
                   match l with
                   | [] => @List.Forall_nil _ P
                   | x :: r => @List.Forall_cons _ P x r (pyobj_nested_ind x) (go r)
                   end) l)
  | PyDict d =>
      HDict d ((fix go (d : list (string * pyobj)) : Forall (fun kv => P (snd kv)) d :=
                  match d with
                  | [] => @List.Forall_nil _ (fun kv => P (snd kv))
                  | kv :: r =>
                      @List.Forall_cons _ (fun kv => P (snd kv)) kv r
                        (match kv as p return P (snd p) with
                         | (k, x) => pyobj_nested_ind x
                         end)
                        (go r)
                  end) d)
  end.
End pyobj_induction.

(** Nodes and edges as the Python dicts they are. *)
Definition node_to_py (n : GraphNode) : pyobj :=
  PyDict [("id", PyStr (n_id n)); ("kind", PyStr (n_kind n));
          ("attributes", PyDict (n_attributes n));
          ("embedding", PyList (map PyFloat (n_embedding n)))].

Definition edge_to_py (e : GraphEdge) : pyobj :=
  PyDict [("source_id", PyStr (e_source e)); ("dest_id", PyStr (e_dest e));
          ("kind", PyStr (e_kind e)); ("weight", PyFloat (e_weight e));
          ("attributes", PyDict (e_attributes e))].

(** The nodes and edges whose attribute values [json.load] can produce. *)
Definition node_json_native (n : GraphNode) : bool := json_native (PyDict (n_attributes n)).
Definition edge_json_native (e : GraphEdge) : bool := json_native (PyDict (e_attributes e)).

(** ** [part_000]: the [ConsciousnessNetwork] *)

(** What the methods below use of the network object and its surroundings
    without defining it. [unified_dim] and [ahin_model] are attributes set by
    the constructor and [_generate_embedding_from_data] is a method of the
    class, none of them in the source files; [ahin_model] is whatever callable
    the constructor binds, [ahin_call] below being the network of
    [ai-model.py]. [cosine_similarity] and [new_id] are the similarity
    measure and the id scheme (the id of the node at a given position) of the
    helpers modelled from the spec. *)
Record Env : Type := {
  lib : Numerics;
  unified_dim : nat;                                         (* self.unified_dim *)
  _generate_embedding_from_data : pydict -> result (Tensor Q);
  ahin_model : Tensor Q -> M Gen (Tensor Q * pyval);         (* self.ahin_model(...) *)
  cosine_similarity : list Q -> list Q -> Q;
  new_id : nat -> string;
  now_isoformat : string                                     (* datetime.now().isoformat() *)
}.

(** The mutable state: torch's generator, the fields [self.nodes] and
    [self.edges], and the files on disk. *)
Record World : Type := mkWorld {
  rng : Gen;
  nodes : list GraphNode;
  edges : list GraphEdge;
  fs : gmap string file_content
}.

Definition set_rng (g : Gen) (w : World) : World := mkWorld g (nodes w) (edges w) (fs w).
Definition set_nodes (ns : list GraphNode) (w : World) : World :=
  mkWorld (rng w) ns (edges w) (fs w).
Definition set_edges (es : list GraphEdge) (w : World) : World :=
  mkWorld (rng w) (nodes w) es (fs w).
(** A computation that only draws random numbers, run in the whole state. *)
Definition lift_rng {A} (m : M Gen A) : M World A :=
  fun w => let (r, g) := m (rng w) in (r, set_rng g w).

(** [v.squeeze()]: a tensor method; a dict has no such attribute. *)
Definition squeeze_method (v : pyval) : result torchval :=
  match v with
  | PTensor (TFloat t) => Ok (TFloat (squeeze t))
  | PTensor (TLong t) => Ok (TLong (squeeze t))
  | PDict _ => Raise AttributeError
  end.

(** [t.mean(dim=0)] *)
Definition mean_dim0 (t : Tensor Q) : result (Tensor Q) :=
  match shape t with
  | n :: s =>
      Ok (mkTensor s
            (Qscale (/ inject_Z (Z.of_nat n))
               (foldr vec_add (replicate (numel s) 0%Q) (rows (numel s) n (data t)))))
  | [] => Raise IndexError
  end.

(** The loop [for embedding in embeddings_tensor] of
    [extract_consciousness_representation], with its two accumulators. *)
Fixpoint ahin_loop (env : Env) (embeddings : list (Tensor Q))
    (outputs : list (Tensor Q)) (hash_codes_list : list torchval)
  : M Gen (list (Tensor Q) * list torchval) :=
  match embeddings with
  | [] => ret (outputs, hash_codes_list)
  | embedding :: rest =>
      r <- ahin_model env (unsqueeze0 embedding) ;;
      let output := fst r in
      let hash_codes := snd r in
      let outputs := outputs ++ [squeeze output] in
      h <- lift_result (squeeze_method hash_codes) ;;
      ahin_loop env rest outputs (hash_codes_list ++ [h])
  end.

Definition extract_consciousness_representation (env : Env) (user_data : list pydict)
  : M Gen (Tensor Q) :=
  match user_data with
  | [] => ret (zeros (unified_dim env))
  | _ =>
      embeddings <- lift_result (map_result (_generate_embedding_from_data env) user_data) ;;
      embeddings_tensor <- lift_result (stack embeddings) ;;
      per_item <- lift_result (iter_tensor embeddings_tensor) ;;
      r <- ahin_loop env per_item [] [] ;;
      stacked <- lift_result (stack (fst r)) ;;
      aggregated_output <- lift_result (mean_dim0 stacked) ;;
      ret (normalize_l2 (lib env) aggregated_output)
  end.

(** Modelled from the spec: [add_node], which is not in the source files.
    It appends a node [{id, kind, attributes, embedding}] with an id unique
    in the session and returns the id; without an embedding argument the
    node gets "its own embedding (from the external extractor)". *)
Definition add_node (env : Env) (attributes : pydict) (kind : string)
    (embedding : option (Tensor Q)) : M World string :=
  e <- lift_result match embedding with
                   | Some t => Ok t
                   | None => _generate_embedding_from_data env attributes
                   end ;;
  w <- get ;;
  let node_id := new_id env (length (nodes w)) in
  modify (set_nodes (nodes w ++ [mkNode node_id kind attributes (data e)])) ;;;
  ret node_id.

(** Modelled from the spec: [add_edge], which is not in the source files.
    It appends an edge [{source_id, dest_id, kind, weight, attributes}]. *)
Definition add_edge (source target kind : string) (weight : Q) (attributes : pydict)
  : M World unit :=
  w <- get ;;
  modify (set_edges (edges w ++ [mkEdge source target kind weight attributes])).

(** [_get_node_by_id] on nodes made by [add_node], each of which has its
    id; the lookup on fields that hold any values is [_get_node_by_id_any]
    below. *)
Definition _get_node_by_id (node_id : string) : M World (option GraphNode) :=
  w <- get ;;
  ret (List.find (fun node => String.eqb (n_id node) node_id) (nodes w)).

(** [a < b] on floats. *)
Definition Qltb (a b : Q) : bool := negb (Qle_bool b a).

(** A stable sort by descending score: what [sorted(..., reverse=True)]
    does to entries keyed by their score. *)
Fixpoint insert_desc {A} (score : A -> Q) (x : A) (l : list A) : list A :=
  match l with
  | [] => [x]
  | y :: l' => if Qltb (score x) (score y) then y :: insert_desc score x l' else x :: y :: l'
  end.

Definition sort_desc {A} (score : A -> Q) (l : list A) : list A :=
  foldr (insert_desc score) [] l.

(** [a] may stand before [b] in a descending ranking. *)
Definition not_below {A} (score : A -> Q) (a b : A) : Prop := (score b <= score a)%Q.

(** The entries of one score, in the order they have in [l]. *)
Definition tied {A} (score : A -> Q) (c : Q) (l : list A) : list A :=
  List.filter (fun a => Qeq_bool (score a) c) l.

(** Modelled from the spec: [query_similar_nodes], which is not in the source
    files. "Computes cosine similarity between [embedding] and every node's
    stored embedding currently in the graph. Returns the [top_k]
    highest-scoring nodes (fewer if the graph has fewer nodes), sorted
    descending by score; ties broken by earliest insertion order (stable).
    Excludes no node by default." *)
Definition rank_nodes (env : Env) (ns : list GraphNode) (embedding : list Q) (top_k : nat)
  : list SimilarNode :=
  take top_k
    (sort_desc similarity_score
       (map (fun node => mkSimilar (n_id node)
                           (cosine_similarity env embedding (n_embedding node)) node) ns)).

(** Modelled from the spec: [query_similar_nodes] ranks the nodes currently
    in the builder and changes nothing. *)
Definition query_similar_nodes (env : Env) (embedding : list Q) (top_k : nat)
  : M World (list SimilarNode) :=
  w <- get ;;
  ret (rank_nodes env (nodes w) embedding top_k).

(** [enumerate(xs)], counting from [i]. *)
Fixpoint enumerate_from {A} (i : nat) (xs : list A) : list (nat * A) :=
  match xs with
  | [] => []
  | x :: xs' => (i, x) :: enumerate_from (S i) xs'
  end.

(** [1.0 / (i + 1)] *)
Definition decay_weight (i : nat) : Q := 1 # Pos.of_succ_nat i.

(** The body of [for i, data_item in enumerate(user_data)]. *)
Definition process_item (env : Env) (core_node_id : string) (entry : nat * pydict)
  : M World unit :=
  let i := fst entry in
  let data_item := snd entry in
  let data_type := _determine_data_type data_item in
  node_id <- add_node env data_item data_type None ;;
  add_edge core_node_id node_id "consciousness_connection" (decay_weight i) [] ;;;
  found <- _get_node_by_id node_id ;;
  match found with
  | None => raise TypeError                          (* None['embedding'] *)
  | Some node =>
      let node_embedding := n_embedding node in
      similar_nodes <- query_similar_nodes env node_embedding 3 ;;
      for_each similar_nodes (fun sim_node =>
        if negb (String.eqb (sim_id sim_node) node_id)
        then add_edge node_id (sim_id sim_node) "semantic_similarity"
               (similarity_score sim_node)
               [("similarity_score", PyFloat (similarity_score sim_node))]
        else ret tt)
  end.

Definition generate_consciousness_graph (env : Env) (user_data : list pydict)
  : M World Graph :=
  modify (set_nodes []) ;;;
  modify (set_edges []) ;;;
  consciousness_vector <- lift_rng (extract_consciousness_representation env user_data) ;;
  core_node_id <-
    add_node env
      [("type", PyStr "core_consciousness"); ("timestamp", PyStr (now_isoformat env))]
      "consciousness" (Some consciousness_vector) ;;
  for_each (enumerate_from 0 user_data) (process_item env core_node_id) ;;;
  w <- get ;;
  ret (mkGraph consciousness_vector (nodes w) (edges w)).

(** ** The builder's fields as Python values

    [save_to_file], [load_from_file] and [_get_node_by_id] take
    [self.nodes] and [self.edges] as they are: [load_from_file] assigns
    whatever the file's document holds under [nodes] and [edges], node
    dicts or not. For these methods the builder is its two fields, as
    Python values, and the files. *)
Record Builder : Type := mkBuilder {
  b_nodes : pyobj;                         (* self.nodes *)
  b_edges : pyobj;                         (* self.edges *)
  b_files : gmap string file_content
}.

(** The fields of a builder whose nodes and edges were made by [add_node]
    and [add_edge]. *)
Definition builder_of (w : World) : Builder :=
  mkBuilder (PyList (map node_to_py (nodes w))) (PyList (map edge_to_py (edges w))) (fs w).

(** [open(filepath, 'w')] fails before anything is written; once the file
    is open it is truncated, and a [json.dump] that raises leaves it with a
    text that is no document. *)
Definition save_to_file (filepath : string) : M Builder unit :=
  fun self =>
    let data := PyDict [("nodes", b_nodes self); ("edges", b_edges self)] in
    match b_files self !! filepath with
    | Some (FRefused e) => (Raise e, self)
    | _ =>
        match json_dump data with
        | Ok j =>
            (Ok tt, mkBuilder (b_nodes self) (b_edges self)
                      (<[filepath := FDoc j]> (b_files self)))
        | Raise e =>
            (Raise e, mkBuilder (b_nodes self) (b_edges self)
                        (<[filepath := FTruncated]> (b_files self)))
        end
    end.

Definition load_from_file (filepath : string) : M Builder unit :=
  fun self =>
    match b_files self !! filepath with
    | None => (Raise FileNotFoundError, self)
    | Some (FRefused e) => (Raise e, self)
    | Some FTruncated => (Raise JSONDecodeError, self)
    | Some (FDoc j) =>
        match json_load j with
        | PyDict data =>
            (Ok tt, mkBuilder (default (PyList []) (dict_get "nodes" data))
                      (default (PyList []) (dict_get "edges" data))
                      (b_files self))
        | _ => (Raise AttributeError, self)              (* data.get *)
        end
    end.

(** [node[key]] for a string [key]: the entry of a dict, [KeyError] when it
    has none; no other value can be indexed by a string. *)
Definition py_item (node : pyobj) (key : string) : result pyobj :=
  match node with
  | PyDict d => match dict_get key d with Some v => Ok v | None => Raise KeyError end
  | _ => Raise TypeError
  end.

(** [v == s] for a string [s] *)
Definition py_eq_str (v : pyobj) (s : string) : bool :=
  match v with PyStr u => String.eqb u s | _ => false end.

(** The loop of [_get_node_by_id] over the values [self.nodes] yields. *)
Fixpoint first_with_id (node_id : string) (ns : list pyobj) : result (option pyobj) :=
  match ns with
  | [] => Ok None
  | node :: rest =>
      rbind (py_item node "id") (fun i =>
      if py_eq_str i node_id then Ok (Some node) else first_with_id node_id rest)
  end.

(** [_get_node_by_id] on the fields as they are. The loop runs over the
    elements of a list or tuple. A dict yields its keys, a string its
    characters and a bytes object its bytes, none of which can be indexed
    by ['id']; iterating over nothing returns [None], and any other value
    is not iterable. On a builder made by [add_node] this is the lookup
    [_get_node_by_id] above. *)
Definition _get_node_by_id_any (node_id : string) : M Builder (option pyobj) :=
  fun self =>
    (match b_nodes self with
     | PyList l | PyTuple l => first_with_id node_id l
     | PyDict [] | PyStr EmptyString | PyBytes EmptyString => Ok None
     | _ => Raise TypeError
     end, self).

(** ** The model of [ai-model.py] as the network's [ahin_model] *)

(** [self.ahin_model(x)] with an [ActiveHashedInteractionNetwork] bound to
    the attribute: [forward(x)], whose second result is the metadata dict. *)
Definition ahin_call (self : AHIN) (numerics : Numerics) (x : Tensor Q)
  : M Gen (Tensor Q * pyval) :=
  r <- forward numerics self x None ;;
  ret (fst r, PDict (snd r)).

Definition with_ahin (self : AHIN) (env : Env) : Env :=
  {| lib := lib env;
     unified_dim := unified_dim env;
     _generate_embedding_from_data := _generate_embedding_from_data env;
     ahin_model := ahin_call self (lib env);
     cosine_similarity := cosine_similarity env;
     new_id := new_id env;
     now_isoformat := now_isoformat env |}.

(** ** Edges by kind *)


Definition connection_edges (es : list GraphEdge) : list GraphEdge :=
  List.filter (fun e => String.eqb (e_kind e) "consciousness_connection") es.

(** ** Concrete inputs used in the examples below *)

(** A generator whose first 32 samples are positive and all later ones
    negative. *)
Definition two_phase_gen : Gen :=
  mkGen (fun k => if (k <? 32)%nat then 1%Q else (-1)%Q) 0.

(** One feature vector [[1.0]] as a [(1, 1, 1)] tensor. *)
Definition unit_features : Tensor Q := mkTensor [1; 1; 1]%nat [1%Q].

(** The three items of [main()]: text only, image only, text and image. *)
Definition text_item : pydict :=
  [("text", PyStr "first note"); ("timestamp", PyStr "2023-01-01T12:00:00Z");
   ("tags", PyList [PyStr "note"; PyStr "personal"])].
Definition image_item : pydict :=
  [("image", PyStr "base64_encoded_image_data");
   ("timestamp", PyStr "2023-01-02T14:30:00Z"); ("location", PyStr "home")].
Definition text_image_item : pydict :=
  [("text", PyStr "a note with an image"); ("image", PyStr "base64_encoded_image_data");
   ("timestamp", PyStr "2023-01-03T09:45:00Z");
   ("tags", PyList [PyStr "note"; PyStr "image"; PyStr "memory"])].
Definition main_user_data : list pydict := [text_item; image_item; text_image_item].

(** An extractor that answers with a unit vector of four features, chosen
    by the first modality key present. *)
Definition key_features (data_item : pydict) : result (Tensor Q) :=
  Ok (mkTensor [4%nat]
        (if key_in "text" data_item then [1; 0; 0; 0]
         else if key_in "image" data_item then [0; 1; 0; 0]
         else if key_in "audio" data_item then [0; 0; 1; 0]
         else [0; 0; 0; 1])%Q).

(** Numeric functions for the examples, exact where the examples use them:
    the square root of a square of a rational, the softmax of a row whose
    entries are all equal (the uniform distribution), the normalization of
    the zero vector and of a unit vector (the identity). *)
Definition example_numerics : Numerics :=
  {| np_sqrt := fun q => (inject_Z (Z.sqrt (Qnum q)) / inject_Z (Z.sqrt (Z.pos (Qden q))))%Q;
     softmax_last := fun t =>
       mkTensor (shape t)
                (map (fun _ => (1 / inject_Z (Z.of_nat (default 1%nat (last (shape t)))))%Q)
                     (data t));
     normalize_l2 := fun t => t |}.

(** A network in evaluation mode whose layers are identities; only the
    sizes matter. *)
Definition example_ahin : AHIN :=
  {| input_dim := 4; hidden_dim := 4; output_dim := 4; hash_size := 1024; num_layers := 3;
     input_projection := Ok;
     hash_embedding := replicate 1024 [0; 0; 0; 0]%Q;
     activation := fun t => t;
     transformer_encoder := fun t _ => ret t;
     output_projection := Ok;
     memory_key := mkTensor [64; 4]%nat (replicate 256 0%Q);
     memory_value := mkTensor [64; 4]%nat (replicate 256 0%Q);
     query_generator := Ok;
     dropout := ret |}.

(** An environment for the examples, with the network of [ai-model.py]
    bound to [self.ahin_model]; the similarity is the dot product, the
    cosine of unit vectors. *)
Definition example_env : Env :=
  {| lib := example_numerics;
     unified_dim := 4;
     _generate_embedding_from_data := key_features;
     ahin_model := ahin_call example_ahin example_numerics;
     cosine_similarity := dot;
     new_id := fun n => "node_" +:+ pretty n;
     now_isoformat := "2023-01-04T00:00:00" |}.


(** Five nodes [v0 .. v4] and a query [q] to which [v1] and [v3] are equally
    similar. *)
Definition ranking_nodes : list GraphNode :=
  [mkNode "v0" "generic_data" [] [0; 1; 0; 0]%Q;
   mkNode "v1" "generic_data" [] [1; 0; 0; 0]%Q;
   mkNode "v2" "generic_data" [] [-1; 0; 0; 0]%Q;
   mkNode "v3" "generic_data" [] [1; 0; 0; 0]%Q;
   mkNode "v4" "generic_data" [] [0; 0; 1; 0]%Q].
Definition ranking_query : list Q := [1; 0; 0; 0]%Q.

(** A node whose attributes hold a tuple, and a builder that holds it. *)
Definition tuple_node : GraphNode :=
  mkNode "node_0" "generic_data" [("position", PyTuple [PyInt 1; PyInt 2])] [1; 0]%Q.
Definition tuple_world : World := mkWorld two_phase_gen [tuple_node] [] ∅.

(** An image item whose payload is raw bytes, and a builder that holds its
    node. *)
Definition bytes_node : GraphNode :=
  mkNode "node_0" "image_data" [("image", PyBytes "raw")] [0; 1]%Q.
Definition bytes_world : World := mkWorld two_phase_gen [bytes_node] [] ∅.

(** A builder holding a core node, the node of [main()]'s first item and
    the edge between them, as [add_node] and [add_edge] make them. *)
Definition saved_world : World :=
  mkWorld two_phase_gen
    [mkNode "node_0" "consciousness"
       [("type", PyStr "core_consciousness"); ("timestamp", PyStr "2023-01-04T00:00:00")]
       [0; 0; 0; 0]%Q;
     mkNode "node_1" "text_data" text_item [1; 0; 0; 0]%Q]
    [mkEdge "node_0" "node_1" "consciousness_connection" 1 []]
    ∅.

(** A builder into which a document with a number in place of a node has
    been loaded. *)
Definition loaded_numbers : Builder := mkBuilder (PyList [PyInt 1; PyInt 2]) (PyList []) ∅.

(** A file system in which ["missing/graph.json"] lies below a directory
    that does not exist. *)
Definition no_directory : gmap string file_content :=
  {["missing/graph.json" := FRefused FileNotFoundError]}.

(** ** The hash of one position, in closed form *)

(** The basis [torch.randn(d, 32)] that a call of [hash_function] draws in
    generator state [g]. *)
Definition drawn_basis (g : Gen) (d : nat) : Tensor Q :=
  mkTensor [d; 32%nat] (map (fun k => samples g (consumed g + k)%nat) (seq 0 (d * 32))).

(** The 32 sign bits of every position of a three-dimensional [x]. *)
Definition sign_rows (basis : Tensor Q) (x : Tensor Q) : list (list Q) :=
  match shape x, matmul x basis with
  | [b; s; _], Ok projection => rows 32 (b * s) (map binarize (data projection))
  | _, _ => []
  end.

(** What the combining loop does to the four digits of one position. *)
Definition row_hash (hash_size : Z) (bits : list Q) : Z :=
  foldl (fun c i => wrap64 (c * 256 + fold_segment i bits) mod hash_size)
        (fold_segment 0 bits) [8; 16; 24]%nat.

(** The four digits read as one base-256 number, first digit leading. *)
Definition sign_word (bits : list Q) : Z :=
  ((fold_segment 0 bits * 256 + fold_segment 8 bits) * 256 + fold_segment 16 bits) * 256
  + fold_segment 24 bits.

Definition is_bit (q : Q) : Prop := q = 0%Q \/ q = 1%Q.

(** ** [combine_features]: rows contributed by one feature array *)

(** A one-dimensional array is one row, a two-dimensional one as many rows
    as its first size says. *)
Definition feature_rows (t : Tensor Q) : nat :=
  match shape t with
  | [_] => 1
  | k :: _ => k
  | [] => 0
  end.

(** ** [ai-data-processing.py]: the [MultiModalDataProcessor] *)

(** The configuration fields of the processor. *)
Record MultiModalDataProcessor : Type := {
  image_size : nat * nat;
  max_text_length : nat;
  feature_dim : nat
}.

(** A numpy vector. *)
Definition vector (l : list Q) : Tensor Q := mkTensor [length l] l.

(** [process_text]: a text is its sequence of code points; it is cut to
    [max_text_length], every code point is taken modulo 256, the list is
    padded with zeros to [max_text_length] and divided by 256. *)
Definition process_text (self : MultiModalDataProcessor) (text : list N) : Tensor Q :=
  let text :=
    if (max_text_length self <? length text)%nat
    then take (max_text_length self) text else text in
  let char_indices := map (fun c => (c mod 256)%N) text in
  let char_indices :=
    if (length char_indices <? max_text_length self)%nat
    then char_indices ++ replicate (max_text_length self - length char_indices) 0%N
    else char_indices in
  vector (map (fun n => Z.of_N n # 256) char_indices).

(** The processor with the constructor's default sizes. *)
Definition default_processor : MultiModalDataProcessor :=
  {| image_size := (224, 224)%nat; max_text_length := 512; feature_dim := 512 |}.

(** ** [_flatten_json] *)

(** [d[k] = v] on a dict kept in insertion order: a key that is present
    keeps its place, a new key goes to the end. *)
Definition dict_set (k : string) (v : pyobj) (d : pydict) : pydict :=
  if key_in k d
  then map (fun kv => if String.eqb (fst kv) k then (fst kv, v) else kv) d
  else d ++ [(k, v)].

(** [d.update(other)] *)
Definition dict_update (d other : pydict) : pydict :=
  foldl (fun acc kv => dict_set (fst kv) (snd kv) acc) d other.

(** [isinstance(value, (dict, list))]; a tuple is neither. *)
Definition is_container (v : pyobj) : bool :=
  match v with PyDict _ | PyList _ => true | _ => false end.

(** [f"{prefix}.{key}" if prefix else key] *)
Definition dict_key (prefix key : string) : string :=
  if String.eqb prefix "" then key else prefix +:+ "." +:+ key.

(** [f"{prefix}[{i}]"] *)
Definition list_key (prefix : string) (i : nat) : string :=
  prefix +:+ "[" +:+ pretty i +:+ "]".

(** [for i, item in enumerate(l)], threading an accumulator. *)
Definition foldl_enumerate {A B} (f : A -> nat -> B -> A) : A -> nat -> list B -> A :=
  fix go (a : A) (i : nat) (l : list B) : A :=
    match l with
    | [] => a
    | x :: l' => go (f a i x) (S i) l'
    end.

(** The body both loops share: a nested container is flattened under the
    new key and merged in, anything else is stored under the new key. *)
Definition flatten_member (flatten : pyobj -> string -> pydict) (flattened : pydict)
    (new_key : string) (value : pyobj) : pydict :=
  if is_container value
  then dict_update flattened (flatten value new_key)
  else dict_set new_key value flattened.

Fixpoint _flatten_json (data : pyobj) (prefix : string) : pydict :=
  match data with
  | PyDict d =>
      foldl (fun flattened kv =>
               flatten_member _flatten_json flattened (dict_key prefix (fst kv)) (snd kv))
            [] d
  | PyList l =>
      foldl_enumerate (fun flattened i item =>
                         flatten_member _flatten_json flattened (list_key prefix i) item)
                      [] 0%nat l
  | _ => [(prefix, data)]
  end.

(** A value with no scalar anywhere inside: an empty dict or list, or a dict
    or list of such values. *)
Fixpoint hollow (v : pyobj) : bool :=
  match v with
  | PyDict d => forallb (fun kv => hollow (snd kv)) d
  | PyList l => forallb hollow l
  | _ => false
  end.

(** The scalars of a document, in document order: the values that are
    neither dict nor list. *)
Fixpoint scalars (v : pyobj) : list pyobj :=
  match v with
  | PyDict d => concat (map (fun kv => scalars (snd kv)) d)
  | PyList l => concat (map scalars l)
  | _ => [v]
  end.

(** What a flattened dict satisfies: distinct keys, no container among the
    values. *)
Definition flat (d : pydict) : Prop :=
  NoDup (fst <$> d) /\ Forall (fun kv => is_container (snd kv) = false) d.

(** ** [_json_to_features], [process_json] and [process_file] *)

(** The library functions the processor calls. Text is a list of code
    points, a JSON text included; [str_code_points] gives the code points
    of a string value of a document. *)
Record Platform : Type := {
  py_hash : string -> Z;                                 (* hash(key) *)
  str_code_points : string -> list N;                    (* the characters of a str *)
  linalg_norm : list Q -> Q;                             (* np.linalg.norm *)
  json_loads : list N -> result pyobj;                   (* json.loads *)
  json_dumps : pyobj -> result (list N);                 (* json.dumps *)
  utf8_decode : list Byte.byte -> result (list N);       (* bytes.decode('utf-8') *)
  process_image : list Byte.byte -> result (Tensor Q)    (* process_image on raw bytes *)
}.

(** [float(value)] for a value with [isinstance(value, (int, float))]; a
    [bool] is an [int]. *)
Definition number_value (v : pyobj) : option Q :=
  match v with
  | PyInt z => Some (inject_Z z)
  | PyFloat q => Some q
  | PyBool b => Some (inject_Z (Z.b2z b))
  | _ => None
  end.

(** [features[i] += x] *)
Definition add_at (i : Z) (x : Q) (features : list Q) : list Q :=
  alter (fun y => (y + x)%Q) (Z.to_nat i) features.

(** [sum(ord(c) for c in value[:10])] *)
Definition ord_sum (value : list N) : Z := foldr Z.add 0 (map Z.of_N (take 10 value)).

(** The body of [for key, value in flattened.items()]. *)
Definition features_step (P : Platform) (self : MultiModalDataProcessor)
    (features : list Q) (kv : string * pyobj) : result (list Q) :=
  let dim := Z.of_nat (feature_dim self) in
  if dim =? 0 then Raise ZeroDivisionError
  else
    let key_hash := py_hash P (fst kv) mod dim in
    match number_value (snd kv) with
    | Some x => Ok (add_at key_hash x features)
    | None =>
        match snd kv with
        | PyBool b => Ok (add_at key_hash (if b then 1 else -1)%Q features)
        | PyStr s =>
            let value := str_code_points P s in
            let features :=
              add_at key_hash (inject_Z (Z.of_nat (length value)) * (1 # 100))%Q features in
            Ok (add_at ((key_hash + 1) mod dim) (inject_Z (ord_sum value) * (1 # 1000))%Q
                       features)
        | _ => Ok features
        end
    end.

Definition _json_to_features (P : Platform) (self : MultiModalDataProcessor)
    (flattened : pydict) : result (Tensor Q) :=
  rbind (foldl (fun acc kv => rbind acc (fun features => features_step P self features kv))
               (Ok (replicate (feature_dim self) 0%Q)) flattened)
        (fun features =>
           let norm := linalg_norm P features in
           Ok (vector (if Qltb 0 norm then map (fun x => (x / norm)%Q) features
                       else features))).

(** [json_data] is a JSON text or an already parsed document. *)
Definition process_json (P : Platform) (self : MultiModalDataProcessor)
    (json_data : list N + pyobj) : result (Tensor Q) :=
  rbind (match json_data with inl text => json_loads P text | inr data => Ok data end)
        (fun data => _json_to_features P self (_flatten_json data "")).

(** [sub in s] *)
Fixpoint contains (sub s : string) : bool :=
  String.prefix sub s
  || match s with EmptyString => false | String _ s' => contains sub s' end.

(** [np.histogram(byte_array, bins=256, range=(0, 256))]: bin [v] counts the
    bytes of value [v]. *)
Definition histogram (byte_array : list Byte.byte) : list nat :=
  map (fun v => length (List.filter (fun b => Nat.eqb (Byte.to_nat b) v) byte_array))
      (seq 0 256).

(** The default branch of [process_file]. *)
Definition byte_features (self : MultiModalDataProcessor) (file_data : list Byte.byte)
  : Tensor Q :=
  let hist := map (fun c => (inject_Z (Z.of_nat c)
                             / inject_Z (Z.of_nat (Nat.max 1 (length file_data))))%Q)
                  (histogram file_data) in
  vector (if (length hist <? feature_dim self)%nat
          then hist ++ replicate (feature_dim self - length hist) 0%Q
          else take (feature_dim self) hist).

Definition process_file (P : Platform) (self : MultiModalDataProcessor)
    (file_data : list Byte.byte) (file_type : string) : result (Tensor Q) :=
  if contains "image" file_type then process_image P file_data
  else if contains "json" file_type then
    rbind (utf8_decode P file_data) (fun text_data => process_json P self (inl text_data))
  else if contains "text" file_type then
    rbind (utf8_decode P file_data) (fun text_data => Ok (process_text self text_data))
  else Ok (byte_features self file_data).

(** ** [data-manager-complete.py]: the [DataManager] *)

(** An entry of [self.cache]: [{"user_address": ..., "timestamp": ...}]. *)
Record CacheEntry : Type := mkEntry {
  ce_user_address : string;
  ce_timestamp : string
}.

(** The storage client handed to the constructor, acting on a store [S]:
    any object with these three methods. *)
Record WalrusClient (S : Type) : Type := {
  walrus_store : string -> list N -> M S string;
  walrus_retrieve : string -> M S (option (list N));
  walrus_delete : string -> M S bool
}.
Arguments walrus_store {S} _ _ _ _.
Arguments walrus_retrieve {S} _ _ _.
Arguments walrus_delete {S} _ _ _.

(** The state of a manager: the store behind its client and its cache, a
    dict in insertion order. *)
Record DataManager (S : Type) : Type := mkManager {
  walrus : S;
  cache : list (string * CacheEntry)
}.
Arguments mkManager {S} _ _.
Arguments walrus {S} _.
Arguments cache {S} _.

(** A call of the client from inside the manager. *)
Definition call_walrus {S A} (m : M S A) : M (DataManager S) A :=
  fun self => let (r, s) := m (walrus self) in (r, mkManager s (cache self)).

(** [self.cache.get(ref_id)] *)
Definition cache_get (ref_id : string) (c : list (string * CacheEntry)) : option CacheEntry :=
  snd <$> List.find (fun kv => String.eqb (fst kv) ref_id) c.

(** [self.cache[ref_id] = entry] *)
Definition cache_set (ref_id : string) (entry : CacheEntry) (c : list (string * CacheEntry))
  : list (string * CacheEntry) :=
  if existsb (fun kv => String.eqb (fst kv) ref_id) c
  then map (fun kv => if String.eqb (fst kv) ref_id then (fst kv, entry) else kv) c
  else c ++ [(ref_id, entry)].

(** [del self.cache[ref_id]] *)
Definition cache_del (ref_id : string) (c : list (string * CacheEntry))
  : list (string * CacheEntry) :=
  List.filter (fun kv => negb (String.eqb (fst kv) ref_id)) c.

(** [ref_id in self.cache and self.cache[ref_id]["user_address"] == user_address] *)
Definition owned_by (ref_id user_address : string) (c : list (string * CacheEntry)) : bool :=
  match cache_get ref_id c with
  | Some entry => String.eqb (ce_user_address entry) user_address
  | None => false
  end.

(** [store_processed_data] for a [data] that is no numpy array; [now] and
    [uuid_hex] are what [datetime.datetime.now().isoformat()] and
    [uuid.uuid4().hex] answer during the call. *)
Definition store_processed_data {S} (P : Platform) (client : WalrusClient S)
    (now uuid_hex : string) (data : pyobj) (user_address : string)
    (metadata : option pydict) (original_ref : option string)
  : M (DataManager S) string :=
  let storage_obj :=
    [("data", data); ("user_address", PyStr user_address); ("timestamp", PyStr now);
     ("metadata", PyDict match metadata with Some md => md | None => [] end)] in
  let storage_obj :=
    match original_ref with
    | Some ((String _ _) as r) => dict_set "original_ref" (PyStr r) storage_obj
    | _ => storage_obj
    end in
  let ref_id := "processed_" +:+ uuid_hex in
  text <- lift_result (json_dumps P (PyDict storage_obj)) ;;
  call_walrus (walrus_store client ref_id text) ;;;
  modify (fun self => mkManager (walrus self)
                        (cache_set ref_id (mkEntry user_address now) (cache self))) ;;;
  ret ref_id.

(** How [retrieve_processed_data] ends: it returns the stored object or
    [None], lets an exception of the client or of [json.loads] through, or
    fails on a name that is bound nowhere. *)
Inductive retrieved : Type :=
  | Found (data_obj : pydict)
  | NotFound
  | Failed (e : PyError)
  | UnboundName (name : string).

(** [d[k]] *)
Definition dict_item (k : string) (d : pydict) : result pyobj :=
  match dict_get k d with Some v => Ok v | None => Raise KeyError end.

Definition retrieve_processed_data {S} (P : Platform) (client : WalrusClient S)
    (ref_id user_address : string) (self : DataManager S) : retrieved * DataManager S :=
  if owned_by ref_id user_address (cache self) then
    match call_walrus (walrus_retrieve client ref_id) self with
    | (Raise e, self) => (Failed e, self)
    | (Ok (Some ((_ :: _) as data_str)), self) =>
        match json_loads P data_str with
        | Raise e => (Failed e, self)
        | Ok (PyDict data_obj) =>
            match dict_item "user_address" data_obj with
            | Raise e => (Failed e, self)
            | Ok owner =>
                if py_eq_str owner user_address then
                  match dict_item "data" data_obj with
                  | Raise e => (Failed e, self)
                  | Ok (PyList _) => (UnboundName "metadata", self)
                  | Ok _ => (Found data_obj, self)
                  end
                else (NotFound, self)
            end
        | Ok _ => (Failed TypeError, self)
        end
    | (Ok _, self) => (NotFound, self)
    end
  else (NotFound, self).

(** Insertion into a list sorted by descending key, behind the entries of
    the same key. *)
Fixpoint insert_newest {A} (key : A -> string) (x : A) (l : list A) : list A :=
  match l with
  | [] => [x]
  | y :: l' =>
      if String.ltb (key x) (key y) then y :: insert_newest key x l' else x :: y :: l'
  end.

(** [l.sort(key=key, reverse=True)]: a stable sort by descending key. *)
Definition sort_newest {A} (key : A -> string) (l : list A) : list A :=
  foldr (insert_newest key) [] l.

(** An element of the answer of [list_user_data]:
    [{"ref_id": ..., "timestamp": ...}]. *)
Record DataRef : Type := mkRef {
  r_ref_id : string;
  r_timestamp : string
}.

Definition list_user_data {S} (user_address : string) : M (DataManager S) (list DataRef) :=
  self <- get ;;
  let user_refs :=
    map (fun kv => mkRef (fst kv) (ce_timestamp (snd kv)))
        (List.filter (fun kv => String.eqb (ce_user_address (snd kv)) user_address)
                     (cache self)) in
  ret (sort_newest r_timestamp user_refs).

Definition delete_data {S} (client : WalrusClient S) (ref_id user_address : string)
  : M (DataManager S) bool :=
  self <- get ;;
  if owned_by ref_id user_address (cache self) then
    success <- call_walrus (walrus_delete client ref_id) ;;
    if success : bool then
      modify (fun self => mkManager (walrus self) (cache_del ref_id (cache self))) ;;;
      ret true
    else ret false
  else ret false.

(** ** Concrete inputs for the further properties *)

(** Two positions of four features each. *)
Definition pair_features : Tensor Q :=
  mkTensor [1; 2; 4]%nat [1; 0; 0; 0; 0; 1; 0; 0]%Q.

(** Two positions of two features, all zero. *)
Definition zero_features : Tensor Q := mkTensor [1; 2; 2]%nat [0; 0; 0; 0]%Q.

(** A feature vector of length 2, a [(2, 2)] feature matrix and a feature
    vector of length 3. *)
Definition short_vector : Tensor Q := mkTensor [2]%nat [1; 2]%Q.
Definition square_matrix : Tensor Q := mkTensor [2; 2]%nat [3; 4; 5; 6]%Q.
Definition long_vector : Tensor Q := mkTensor [3]%nat [7; 8; 9]%Q.

(** A processor that keeps four characters of a text. *)
Definition small_processor : MultiModalDataProcessor :=
  {| image_size := (2, 2)%nat; max_text_length := 4; feature_dim := 4 |}.

(** Library functions for the examples: the hash of a key is its length,
    the norm is the sum of the squares, every JSON text is that of
    one stored object, and strings and bytes are read as Latin-1. *)
Definition example_platform : Platform :=
  {| py_hash := fun key => Z.of_nat (String.length key);
     str_code_points := fun s => map Ascii.N_of_ascii (String.list_ascii_of_string s);
     linalg_norm := fun features => Qsum (map (fun x => x * x)%Q features);
     json_loads := fun _ => Ok (PyDict [("data", PyList [PyInt 1; PyInt 2]);
                                        ("user_address", PyStr "0xA")]);
     json_dumps := fun _ => Ok [123; 125]%N;
     utf8_decode := fun file_data => Ok (map Byte.to_N file_data);
     process_image := fun _ => Raise ValueError |}.

(** A storage client that keeps the texts in a list. *)
Definition memory_client : WalrusClient (list (string * list N)) :=
  {| walrus_store := fun ref_id text store => (Ok ref_id, store ++ [(ref_id, text)]);
     walrus_retrieve := fun ref_id store =>
       (Ok (snd <$> List.find (fun kv => String.eqb (fst kv) ref_id) store), store);
     walrus_delete := fun ref_id store =>
       (Ok true, List.filter (fun kv => negb (String.eqb (fst kv) ref_id)) store) |}.

(** A manager that holds one object of user [0xA] and one of user [0xB]. *)
Definition example_manager : DataManager (list (string * list N)) :=
  mkManager [("processed_1", [123; 125]%N); ("processed_2", [123; 125]%N)]
            [("processed_1", mkEntry "0xA" "2024-01-01T00:00:00");
             ("processed_2", mkEntry "0xB" "2024-01-02T00:00:00")].

(** The bytes of [aba] and of [baa]. *)
Definition small_file : list Byte.byte := [Byte.x61; Byte.x62; Byte.x61].
Definition shuffled_file : list Byte.byte := [Byte.x62; Byte.x61; Byte.x61].

(** * Properties *)

(** ** The hash projector *)

Lemma combine_step_in_range (hs : Z) (c d : list Z) :
  0 < hs -> Forall (fun z => 0 <= z < hs) (combine_step hs c d).
Proof.
  intros Hhs. unfold combine_step. revert d.
  induction c as [|c0 c IH]; intros [|d0 d]; simpl; try constructor.
  - apply Z.mod_pos_bound. exact Hhs.
  - apply IH.
Qed.

Lemma embedding_row_ok (weight : list (list Q)) (z : Z) :
  0 <= z < Z.of_nat (length weight) -> is_ok (embedding_row weight z) = true.
Proof.
  intros Hz. unfold embedding_row.
  assert (Hlt : (Z.to_nat z < length weight)%nat) by lia.
  destruct (lookup_lt_is_Some_2 weight _ Hlt) as [row Hrow].
  rewrite Hrow.
  replace (0 <=? z) with true by (symmetry; apply Z.leb_le; lia).
  replace (z <? Z.of_nat (length weight)) with true by (symmetry; apply Z.ltb_lt; lia).
  reflexivity.
Qed.

Lemma map_result_ok {A B} (f : A -> result B) (xs : list A) :
  Forall (fun x => is_ok (f x) = true) xs -> is_ok (map_result f xs) = true.
Proof.
  induction 1 as [|x xs Hx _ IH]; simpl; [reflexivity|].
  destruct (f x); [|discriminate]. simpl.
  destruct (map_result f xs); [reflexivity|discriminate].
Qed.

Lemma embedding_ok (weight : list (list Q)) (hidden : nat) (idx : Tensor Z) :
  Forall (fun z => 0 <= z < Z.of_nat (length weight)) (data idx) ->
  is_ok (embedding weight hidden idx) = true.
Proof.
  intros Hall. unfold embedding.
  assert (H : is_ok (map_result (embedding_row weight) (data idx)) = true).
  { apply map_result_ok. eapply Forall_impl; [exact Hall|].
    intros z Hz. apply embedding_row_ok. exact Hz. }
  destruct (map_result _ _); [reflexivity|discriminate].
Qed.

(** C10. For a configured [hash_size >= 1], [hash_function] returns for every
    three-dimensional feature tensor (it raises only for other ranks), every
    index it returns lies in [0, hash_size), and so the embedding lookup of
    [forward], whose table has [hash_size] rows, does not raise on them. *)
Theorem hash_function_indices_in_range (hs : Z) (x : Tensor Q) (g : Gen) :
  1 <= hs ->
  match hash_function hs x g with
  | (Ok idx, _) =>
      length (shape x) = 3%nat
      /\ Forall (fun z => 0 <= z < hs) (data idx)
      /\ forall (weight : list (list Q)) (hidden : nat),
           Z.of_nat (length weight) = hs -> is_ok (embedding weight hidden idx) = true
  | (Raise _, _) => length (shape x) <> 3%nat
  end.
Proof.
  intros Hhs. unfold hash_function.
  destruct x as [sh dat]. cbn [shape data].
  destruct sh as [|b [|s [|d [|e sh]]]].
  - (* rank 0 *) cbn. discriminate.
  - (* rank 1 *)
    cbn [last]. unfold bind, randn, lift_result.
    destruct (matmul _ _); cbn; discriminate.
  - (* rank 2 *)
    cbn [last]. unfold bind, randn, lift_result.
    destruct (matmul _ _); cbn; discriminate.
  - (* rank 3 *)
    cbn [last]. unfold bind, randn, lift_result, matmul.
    cbn [shape data reverse rev_append length]. rewrite Nat.eqb_refl.
    cbn [map foldl]. unfold ret, raise.
    destruct (Z.eqb_spec hs 0) as [->|_]; [lia|].
    cbn [shape data length].
    assert (Hr : forall c i, Forall (fun z => 0 <= z < hs) (combine_step hs c i))
      by (intros; apply combine_step_in_range; lia).
    split; [reflexivity|]. split; [apply Hr|].
    intros weight hidden Hlen. apply embedding_ok. cbn [data].
    rewrite Hlen. apply Hr.
  - (* rank >= 4 *)
    destruct (last (b :: s :: d :: e :: sh)); unfold bind, randn, lift_result, raise;
      [|cbn; discriminate].
    destruct (matmul _ _); cbn; discriminate.
Qed.

(** C1. The projection basis is drawn inside [hash_function]: two successive
    calls on the same feature tensor, with the same [hash_size], return the
    buckets 1023 and 0 when the generator hands out positive samples for the
    first call and negative ones for the second. The determinism the claim
    asks of one projector instance does not hold. *)
Theorem hash_function_redraws_basis :
  let first := hash_function 1024 unit_features two_phase_gen in
  let second := hash_function 1024 unit_features (snd first) in
  fst first = Ok (mkTensor [1; 1]%nat [1023])
  /\ fst second = Ok (mkTensor [1; 1]%nat [0]).
Proof. vm_compute. split; reflexivity. Qed.

(** ** Modality classification *)

Lemma determine_data_type_never_multimodal (data_item : pydict) :
  _determine_data_type data_item <> "multimodal_data".
Proof.
  unfold _determine_data_type. simpl.
  destruct (key_in "text" data_item); [discriminate|].
  destruct (key_in "image" data_item); [discriminate|].
  destruct (key_in "audio" data_item); simpl; discriminate.
Qed.

(** C2. An item that has both a [text] and an [image] key (the third item of
    [main()]) is classified [text_data]: the [text] test comes first and the
    [multimodal_data] branch is never reached. *)
Theorem determine_data_type_text_and_image :
  key_in "text" text_image_item = true
  /\ key_in "image" text_image_item = true
  /\ _determine_data_type text_image_item = "text_data".
Proof. repeat split; reflexivity. Qed.

(** ** The representation step with the network of [ai-model.py] *)

Lemma forward_needs_rank_three (numerics : Numerics) (self : AHIN) (x : Tensor Q) (g : Gen) :
  length (shape x) <> 3%nat -> forward numerics self x None g = (Raise ValueError, g).
Proof.
  intros Hrank. unfold forward.
  destruct (shape x) as [|b [|s [|d [|e sh]]]]; try reflexivity.
  exfalso. apply Hrank. reflexivity.
Qed.

Lemma forward_returns_only_rank_three (numerics : Numerics) (self : AHIN) (x : Tensor Q)
    (g g' : Gen) r :
  forward numerics self x None g = (Ok r, g') -> length (shape x) = 3%nat.
Proof.
  intros Hfw. destruct (decide (length (shape x) = 3%nat)) as [|Hne]; [assumption|].
  rewrite (forward_needs_rank_three _ _ _ _ Hne) in Hfw. discriminate.
Qed.

(** Whenever the model call returns, its second result is the metadata dict,
    and the input was three-dimensional. *)
Lemma ahin_call_returns_dict (self : AHIN) (numerics : Numerics) (x : Tensor Q)
    (g g' : Gen) (r : Tensor Q * pyval) :
  ahin_call self numerics x g = (Ok r, g') ->
  length (shape x) = 3%nat /\ squeeze_method (snd r) = Raise AttributeError.
Proof.
  unfold ahin_call, bind, ret.
  destruct (forward numerics self x None g) as [[r0|e] g0] eqn:Hfw; [|discriminate].
  intros [= <- <-]. split; [|reflexivity].
  eapply forward_returns_only_rank_three. exact Hfw.
Qed.

Lemma ahin_loop_raises (self : AHIN) (env : Env) t ts outputs hs (g : Gen) :
  exists e, fst (ahin_loop (with_ahin self env) (t :: ts) outputs hs g) = Raise e.
Proof.
  simpl. unfold bind at 1.
  destruct (ahin_call self (lib env) (unsqueeze0 t) g) as [[r|e] g'] eqn:Hcall.
  - apply ahin_call_returns_dict in Hcall as [_ Hsq].
    unfold bind, lift_result. rewrite Hsq. eexists. reflexivity.
  - eexists. reflexivity.
Qed.

Lemma ahin_loop_vector_items (self : AHIN) (env : Env) t ts outputs hs (g : Gen) :
  length (shape t) = 1%nat ->
  fst (ahin_loop (with_ahin self env) (t :: ts) outputs hs g) = Raise ValueError.
Proof.
  intros Hrank. simpl. unfold bind at 1. unfold ahin_call, bind at 1.
  rewrite forward_needs_rank_three; [reflexivity|].
  simpl. rewrite Hrank. discriminate.
Qed.

Lemma map_result_length {A B} (f : A -> result B) (xs : list A) (ys : list B) :
  map_result f xs = Ok ys -> length ys = length xs.
Proof.
  revert ys. induction xs as [|x xs IH]; simpl; intros ys.
  - intros [= <-]. reflexivity.
  - destruct (f x); [|discriminate]. simpl.
    destruct (map_result f xs); [|discriminate]. simpl.
    intros [= <-]. simpl. f_equal. apply IH. reflexivity.
Qed.

Lemma map_result_vectors {A} (f : A -> result (Tensor Q)) (d : nat) (xs : list A) :
  Forall (fun x => exists v, f x = Ok (mkTensor [d] v)) xs ->
  exists embs, map_result f xs = Ok embs /\ Forall (fun t => shape t = [d]) embs.
Proof.
  induction 1 as [|x xs [v Hx] _ (embs & Hmap & Hall)]; simpl.
  - exists []. split; [reflexivity|constructor].
  - rewrite Hx, Hmap. simpl. eexists. split; [reflexivity|].
    constructor; [reflexivity|assumption].
Qed.

Lemma stack_same_shape {A} (t : Tensor A) (ts : list (Tensor A)) (s : list nat) :
  Forall (fun u => shape u = s) (t :: ts) -> exists st, stack (t :: ts) = Ok st.
Proof.
  intros Hall. unfold stack.
  assert (Hb : forallb (fun u => shape_eqb (shape u) (shape t)) (t :: ts) = true).
  { apply forallb_forall. intros u Hu. unfold shape_eqb. apply bool_decide_eq_true.
    rewrite Forall_forall in Hall.
    rewrite (Hall u), (Hall t); [reflexivity|left|apply list_elem_of_In; exact Hu]. }
  rewrite Hb. eexists. reflexivity.
Qed.

(** The tensors the loop iterates over are the stacked embeddings, one per
    item, each of the size of an embedding. *)
Lemma iter_stack_first {A} (t : Tensor A) (ts : list (Tensor A)) (st : Tensor A) :
  stack (t :: ts) = Ok st ->
  exists r rs, iter_tensor st = Ok (r :: rs) /\ shape r = shape t.
Proof.
  unfold stack. destruct (forallb _ _); [|discriminate].
  intros [= <-]. unfold iter_tensor. simpl.
  eexists _, _. split; reflexivity.
Qed.

Lemma bind_lift_ok {S A B} (a : A) (k : A -> M S B) (s : S) :
  bind (lift_result (Ok a)) k s = k a s.
Proof. reflexivity. Qed.

Lemma bind_lift_raise {S A B} (e : PyError) (k : A -> M S B) (s : S) :
  bind (lift_result (Raise e)) k s = (Raise e, s).
Proof. reflexivity. Qed.

Lemma bind_raises {S A B} (m : M S A) (k : A -> M S B) (s : S) (e : PyError) :
  fst (m s) = Raise e -> fst (bind m k s) = Raise e.
Proof.
  unfold bind. destruct (m s) as [[a|e'] s']; simpl; [discriminate|].
  intros [= ->]. reflexivity.
Qed.

Lemma extract_cons (env : Env) (item : pydict) (rest : list pydict) :
  extract_consciousness_representation env (item :: rest)
  = (embeddings <- lift_result (map_result (_generate_embedding_from_data env) (item :: rest)) ;;
     embeddings_tensor <- lift_result (stack embeddings) ;;
     per_item <- lift_result (iter_tensor embeddings_tensor) ;;
     r <- ahin_loop env per_item [] [] ;;
     stacked <- lift_result (stack (fst r)) ;;
     aggregated_output <- lift_result (mean_dim0 stacked) ;;
     ret (normalize_l2 (lib env) aggregated_output)).
Proof. reflexivity. Qed.

Lemma extract_raises_on_nonempty_any (self : AHIN) (env : Env)
    (user_data : list pydict) (g : Gen) :
  user_data <> [] ->
  exists e,
    fst (extract_consciousness_representation (with_ahin self env) user_data g) = Raise e.
Proof.
  intros Hne. destruct user_data as [|item rest]; [congruence|]. clear Hne.
  rewrite extract_cons.
  change (_generate_embedding_from_data (with_ahin self env))
    with (_generate_embedding_from_data env).
  destruct (map_result _ (item :: rest)) as [embs|e] eqn:Hmap;
    [rewrite bind_lift_ok|rewrite bind_lift_raise; eexists; reflexivity].
  pose proof (map_result_length _ _ _ Hmap) as Hlen.
  destruct embs as [|e0 es]; [discriminate|].
  destruct (stack (e0 :: es)) as [st|e] eqn:Hst;
    [rewrite bind_lift_ok|rewrite bind_lift_raise; eexists; reflexivity].
  destruct (iter_stack_first _ _ _ Hst) as (r & rs & Hit & _).
  rewrite Hit, bind_lift_ok.
  destruct (ahin_loop_raises self env r rs [] [] g) as [e He].
  exists e. apply bind_raises. exact He.
Qed.

(** C4. With the network of [ai-model.py] bound to [self.ahin_model],
    [extract_consciousness_representation] raises for every nonempty
    [user_data]. When the items' embeddings are vectors, as the extractor's
    contract says, the exception is the [ValueError] of unpacking the
    two-dimensional [embedding.unsqueeze(0)] into [batch_size, seq_len, _];
    and whenever the model call does return (its input then had three
    dimensions), its second result is the metadata dict, on which
    [.squeeze()] raises [AttributeError]. *)
Theorem extract_raises_on_nonempty (self : AHIN) (env : Env)
    (user_data : list pydict) (g : Gen) :
  user_data <> [] ->
  (exists e,
     fst (extract_consciousness_representation (with_ahin self env) user_data g) = Raise e)
  /\ (forall d,
        Forall (fun item => exists v,
                  _generate_embedding_from_data env item = Ok (mkTensor [d] v)) user_data ->
        fst (extract_consciousness_representation (with_ahin self env) user_data g)
        = Raise ValueError)
  /\ (forall x g0 g1 r,
        ahin_model (with_ahin self env) x g0 = (Ok r, g1) ->
        length (shape x) = 3%nat /\ squeeze_method (snd r) = Raise AttributeError).
Proof.
  intros Hne. split; [apply extract_raises_on_nonempty_any; exact Hne|].
  destruct user_data as [|item rest]; [congruence|]. clear Hne.
  rewrite extract_cons.
  change (_generate_embedding_from_data (with_ahin self env))
    with (_generate_embedding_from_data env).
  split.
  - intros d Hvec.
    destruct (map_result_vectors _ d _ Hvec) as (embs & Hmap & Hall).
    rewrite Hmap, bind_lift_ok.
    pose proof (map_result_length _ _ _ Hmap) as Hlen.
    destruct embs as [|e0 es]; [discriminate|].
    destruct (stack_same_shape e0 es [d] Hall) as [st Hst].
    rewrite Hst, bind_lift_ok.
    destruct (iter_stack_first _ _ _ Hst) as (r & rs & Hit & Hsh).
    rewrite Hit, bind_lift_ok.
    apply bind_raises. apply ahin_loop_vector_items.
    rewrite Hsh. inversion Hall as [|? ? He0 _]. rewrite He0. reflexivity.
  - intros x g0 g1 r Hcall. cbn [ahin_model with_ahin] in Hcall.
    eapply ahin_call_returns_dict. exact Hcall.
Qed.

(** The sibling path: [combine_features] hands the model the
    three-dimensional [(1, n, d)] tensor that [forward] unpacks. *)
Lemma combine_features_shape (t : Tensor Q) (ts : list (Tensor Q)) (d : nat) :
  Forall (fun u => shape u = [d]) (t :: ts) ->
  exists x, combine_features (t :: ts) = Ok x /\ shape x = [1%nat; S (length ts); d].
Proof.
  intros Hall. unfold combine_features.
  set (padded := map _ (t :: ts)).
  assert (Hpad : Forall (fun u => shape u = [1%nat; d]) padded).
  { unfold padded. apply Forall_fmap. eapply Forall_impl; [exact Hall|].
    intros u Hu. simpl. rewrite Hu. simpl. f_equal. exact Hu. }
  assert (Hcat : exists c, cat_dim0 padded = Ok c /\ shape c = [length padded; d]).
  { unfold cat_dim0. destruct padded as [|p0 ps] eqn:Hp; [discriminate|].
    pose proof Hpad as Hpad'. inversion Hpad' as [|? ? Hp0 Hps]; subst.
    rewrite Hp0.
    assert (Hb : forallb (fun u => shape_eqb (tail (shape u)) [d]
                                   && negb (Nat.eqb (length (shape u)) 0)) (p0 :: ps) = true).
    { apply forallb_forall. intros u Hu. apply list_elem_of_In in Hu.
      pose proof Hpad as Hpad2. rewrite Forall_forall in Hpad2. rewrite (Hpad2 u Hu).
      cbn [tail length Nat.eqb negb]. unfold shape_eqb.
      rewrite bool_decide_eq_true_2 by reflexivity. reflexivity. }
    rewrite Hb. eexists. split; [reflexivity|]. cbn [shape]. f_equal.
    clear -Hpad. induction Hpad as [|u us Hu _ IH]; [reflexivity|].
    cbn [map foldr length]. rewrite Hu, IH. reflexivity. }
  destruct Hcat as (c & Hc & Hsh). rewrite Hc. simpl.
  eexists. split; [reflexivity|]. unfold unsqueeze0. cbn [shape]. rewrite Hsh.
  unfold padded. rewrite length_map. reflexivity.
Qed.

Lemma extract_empty (env : Env) (g : Gen) :
  extract_consciousness_representation env [] g = (Ok (zeros (unified_dim env)), g).
Proof. reflexivity. Qed.

(** C3. The normalization contract is not met: with the network of
    [ai-model.py] (whatever its layers) the call on the one-item list
    [[text_item]], whose embedding is a vector of four features, raises
    [ValueError] before any normalization; no vector, of norm one or
    otherwise, is returned. *)
Theorem extract_returns_no_unit_vector (self : AHIN) (g : Gen) :
  fst (extract_consciousness_representation (with_ahin self example_env) [text_item] g)
  = Raise ValueError.
Proof. reflexivity. Qed.

(** ** The graph builder with the network of [ai-model.py] *)

(** When the representation step raises, so does the call; the builder is
    left with no nodes and no edges. *)
Lemma generate_raises_cleared (env : Env) (user_data : list pydict) (w : World) e :
  fst (extract_consciousness_representation env user_data (rng w)) = Raise e ->
  generate_consciousness_graph env user_data w
  = (Raise e,
     mkWorld (snd (extract_consciousness_representation env user_data (rng w))) [] [] (fs w)).
Proof.
  intros Hex. unfold generate_consciousness_graph.
  unfold bind at 1. unfold modify at 1.
  unfold bind at 1. unfold modify at 1.
  unfold bind at 1. unfold lift_rng. cbn [rng set_nodes set_edges nodes edges fs].
  destruct (extract_consciousness_representation env user_data (rng w)) as [r g'].
  simpl in Hex. subst r. reflexivity.
Qed.

(** With the network of [ai-model.py] bound to [self.ahin_model], the call
    raises for every nonempty input, before any node is created. *)
Lemma generate_with_ahin_raises (self : AHIN) (env : Env) (item : pydict)
    (rest : list pydict) (w : World) :
  exists e w',
    generate_consciousness_graph (with_ahin self env) (item :: rest) w = (Raise e, w')
    /\ nodes w' = [] /\ edges w' = [].
Proof.
  assert (Hne : item :: rest <> []) by discriminate.
  destruct (extract_raises_on_nonempty_any self env (item :: rest) (rng w) Hne) as [e He].
  eexists _, _. split; [apply generate_raises_cleared; exact He|].
  split; reflexivity.
Qed.

(** For the empty item list the representation step calls no model, and the
    call returns the core node alone. *)
Lemma generate_empty (env : Env) (w : World) :
  generate_consciousness_graph env [] w
  = (Ok (mkGraph (zeros (unified_dim env))
                 [mkNode (new_id env 0) "consciousness"
                    [("type", PyStr "core_consciousness");
                     ("timestamp", PyStr (now_isoformat env))]
                    (replicate (unified_dim env) 0%Q)]
                 []),
     mkWorld (rng w)
       [mkNode (new_id env 0) "consciousness"
          [("type", PyStr "core_consciousness"); ("timestamp", PyStr (now_isoformat env))]
          (replicate (unified_dim env) 0%Q)]
       [] (fs w)).
Proof. destruct w as [g ns es files]. reflexivity. Qed.

(** The representation step on the three items of [main()], whose
    embeddings are vectors of four features. *)
Lemma extract_main_raises (self : AHIN) (g : Gen) :
  fst (extract_consciousness_representation (with_ahin self example_env) main_user_data g)
  = Raise ValueError.
Proof. reflexivity. Qed.

(** C5. The connection edges are not built. With the network of
    [ai-model.py] bound to [self.ahin_model], the call on the three items of
    [main()] raises [ValueError] in the representation step, before the loop
    that adds an edge per item is reached: no graph is returned and the
    builder is left without any edge, where three [consciousness_connection]
    edges of weights 1, 1/2 and 1/3 are expected. The same happens for
    every nonempty item list, whatever the embedding helper and the layers
    of the network are. *)
Theorem connection_edges_not_built (self : AHIN) (w : World) :
  (exists w',
     generate_consciousness_graph (with_ahin self example_env) main_user_data w
     = (Raise ValueError, w')
     /\ connection_edges (edges w') = [])
  /\ forall (env : Env) (item : pydict) (rest : list pydict),
       exists e w',
         generate_consciousness_graph (with_ahin self env) (item :: rest) w = (Raise e, w')
         /\ connection_edges (edges w') = [].
Proof.
  split.
  - eexists. split; [apply generate_raises_cleared, extract_main_raises|reflexivity].
  - intros env item rest.
    destruct (generate_with_ahin_raises self env item rest w) as (e & w' & Hgen & _ & Hedges).
    exists e, w'. split; [exact Hgen|]. rewrite Hedges. reflexivity.
Qed.

(** C6. The item nodes are not built. With the network of [ai-model.py]
    bound to [self.ahin_model], only the empty item list gets its graph: the
    core node alone, of kind [consciousness], which is then also what the
    builder holds. The call on the three items of [main()] raises
    [ValueError] before any node is created, the core node included, and so
    does the call on every nonempty item list: no graph of [n + 1] nodes is
    returned for any [n >= 1], and the builder is left with no node. *)
Theorem graph_nodes_not_built (self : AHIN) (env : Env) (w : World) :
  (exists graph w',
     generate_consciousness_graph (with_ahin self env) [] w = (Ok graph, w')
     /\ n_kind <$> g_nodes graph = ["consciousness"]
     /\ nodes w' = g_nodes graph)
  /\ (exists w',
        generate_consciousness_graph (with_ahin self example_env) main_user_data w
        = (Raise ValueError, w')
        /\ nodes w' = [])
  /\ forall (item : pydict) (rest : list pydict),
       exists e w',
         generate_consciousness_graph (with_ahin self env) (item :: rest) w = (Raise e, w')
         /\ nodes w' = [].
Proof.
  split; [|split].
  - eexists _, _. split; [apply generate_empty|]. split; reflexivity.
  - eexists. split; [apply generate_raises_cleared, extract_main_raises|reflexivity].
  - intros item rest.
    destruct (generate_with_ahin_raises self env item rest w) as (e & w' & Hgen & Hnodes & _).
    exists e, w'. split; [exact Hgen|exact Hnodes].
Qed.


(** ** Sorting by score *)

Lemma insert_desc_perm {A} (score : A -> Q) (x : A) (l : list A) :
  insert_desc score x l ≡ₚ x :: l.
Proof.
  induction l as [|y l IH]; simpl; [reflexivity|].
  destruct (Qltb (score x) (score y)); [|reflexivity].
  rewrite IH. apply Permutation_swap.
Qed.

Lemma sort_desc_perm {A} (score : A -> Q) (l : list A) : sort_desc score l ≡ₚ l.
Proof.
  induction l as [|x l IH]; simpl; [reflexivity|].
  rewrite insert_desc_perm, IH. reflexivity.
Qed.

Lemma filter_length_perm {A} (f : A -> bool) (l l' : list A) :
  l ≡ₚ l' -> length (List.filter f l) = length (List.filter f l').
Proof.
  induction 1 as [|x l l' _ IH|x y l|l l' l'' _ IH1 _ IH2]; simpl.
  - reflexivity.
  - destruct (f x); simpl; congruence.
  - destruct (f x), (f y); reflexivity.
  - congruence.
Qed.

(** ** Ranking *)

Lemma Qltb_true (a b : Q) : Qltb a b = true -> (a < b)%Q.
Proof.
  unfold Qltb. intros H. apply negb_true_iff in H.
  apply Qnot_le_lt. intros Hle. apply Qle_bool_iff in Hle. congruence.
Qed.

Lemma Qltb_false (a b : Q) : Qltb a b = false -> (b <= a)%Q.
Proof.
  unfold Qltb. intros H. apply negb_false_iff in H. apply Qle_bool_iff. exact H.
Qed.

Section Ranking.
Context {A : Type} (score : A -> Q).

Lemma insert_desc_sorted (x : A) (l : list A) :
  StronglySorted (not_below score) l -> StronglySorted (not_below score) (insert_desc score x l).
Proof.
  induction 1 as [|y l Hsorted IH Hy]; simpl.
  - repeat constructor.
  - destruct (Qltb (score x) (score y)) eqn:Hlt.
    + constructor; [exact IH|].
      rewrite insert_desc_perm. constructor; [|exact Hy].
      apply Qlt_le_weak, Qltb_true, Hlt.
    + apply Qltb_false in Hlt. constructor; [constructor; assumption|].
      constructor; [exact Hlt|].
      eapply Forall_impl; [exact Hy|]. intros z Hz. unfold not_below in *.
      eapply Qle_trans; eassumption.
Qed.

Lemma sort_desc_sorted (l : list A) : StronglySorted (not_below score) (sort_desc score l).
Proof.
  induction l as [|x l IH]; simpl; [constructor|].
  apply insert_desc_sorted, IH.
Qed.

Lemma tied_insert_desc (c : Q) (x : A) (l : list A) :
  tied score c (insert_desc score x l) = tied score c (x :: l).
Proof.
  induction l as [|y l IH]; [reflexivity|]. simpl.
  destruct (Qltb (score x) (score y)) eqn:Hlt; [|reflexivity].
  change (tied score c (y :: ?l')) with
    (if Qeq_bool (score y) c then y :: tied score c l' else tied score c l').
  rewrite IH. simpl.
  destruct (Qeq_bool (score x) c) eqn:Hx, (Qeq_bool (score y) c) eqn:Hy; try reflexivity.
  exfalso. apply Qltb_true in Hlt.
  apply Qeq_bool_iff in Hx. apply Qeq_bool_iff in Hy.
  rewrite Hx, Hy in Hlt. exact (Qlt_irrefl _ Hlt).
Qed.

Lemma tied_sort_desc (c : Q) (l : list A) :
  tied score c (sort_desc score l) = tied score c l.
Proof.
  induction l as [|x l IH]; [reflexivity|]. simpl.
  rewrite tied_insert_desc. simpl. rewrite IH. reflexivity.
Qed.
End Ranking.

(** C8. [query_similar_nodes] leaves the state alone and returns
    [min(top_k, number of nodes)] entries. Together with the nodes it leaves
    out ([rest]) they are all the nodes of the graph, each with its id and its
    cosine similarity to the query, none excluded; the returned entries stand
    in descending order of score, no left-out node scores higher than a
    returned one, and entries of equal score keep their insertion order, both
    inside the answer and in the choice of who is left out. *)
Theorem query_similar_nodes_ranking (env : Env) (w : World) (q : list Q) (top_k : nat) :
  let scored :=
    map (fun node => mkSimilar (n_id node) (cosine_similarity env q (n_embedding node)) node)
        (nodes w) in
  exists result rest,
    query_similar_nodes env q top_k w = (Ok result, w)
    /\ length result = Nat.min top_k (length (nodes w))
    /\ result ++ rest ≡ₚ scored
    /\ StronglySorted (not_below similarity_score) result
    /\ (forall a b, a ∈ result -> b ∈ rest ->
                    (similarity_score b <= similarity_score a)%Q)
    /\ (forall c, tied similarity_score c (result ++ rest) = tied similarity_score c scored).
Proof.
  intros scored. set (sorted := sort_desc similarity_score scored).
  exists (take top_k sorted), (drop top_k sorted).
  pose proof (sort_desc_sorted similarity_score scored) as Hsorted. fold sorted in Hsorted.
  rewrite <- (take_drop top_k sorted) in Hsorted.
  apply StronglySorted_app in Hsorted as (Hcross & Htake & _).
  split; [reflexivity|].
  split.
  { rewrite length_take. unfold sorted.
    rewrite (Permutation_length (sort_desc_perm _ _)). unfold scored.
    rewrite length_map. reflexivity. }
  rewrite take_drop.
  split; [apply sort_desc_perm|].
  split; [exact Htake|].
  split; [|intros c; apply tied_sort_desc].
  intros a b Ha Hb. exact (Hcross a b Ha Hb).
Qed.

(** ** Saving and loading *)

Lemma map_result_roundtrip {A B} (f : A -> result B) (g : B -> A) (ok : A -> bool)
    (xs : list A) :
  Forall (fun x => ok x = true -> exists y, f x = Ok y /\ g y = x) xs ->
  forallb ok xs = true ->
  exists ys, map_result f xs = Ok ys /\ map g ys = xs.
Proof.
  induction 1 as [|x xs Hx _ IH]; simpl; intros Hok.
  - exists []. split; reflexivity.
  - apply andb_true_iff in Hok as [Hokx Hoks].
    destruct (Hx Hokx) as (y & Hfx & Hgy). destruct (IH Hoks) as (ys & Hmap & Hg).
    exists (y :: ys). rewrite Hfx. simpl.
    change ((fix go (xs0 : list A) : result (list B) :=
               match xs0 with
               | [] => Ok []
               | x0 :: xs' => rbind (f x0) (fun y0 => rbind (go xs') (fun ys0 => Ok (y0 :: ys0)))
               end) xs) with (map_result f xs).
    rewrite Hmap. simpl. split; [reflexivity|congruence].
Qed.

(** [json.load] undoes [json.dump] on the values that hold no tuple and no
    bytes. *)
Lemma json_roundtrip (v : pyobj) :
  json_native v = true -> exists j, json_dump v = Ok j /\ json_load j = v.
Proof.
  induction v as [| b | z | q | s | b | l IH | l IH | d IH] using pyobj_nested_ind;
    simpl; intros Hnat; try discriminate; try (eexists; split; reflexivity).
  - destruct (map_result_roundtrip json_dump json_load json_native l IH Hnat)
      as (js & Hmap & Hload).
    exists (JArr js). rewrite Hmap. simpl. split; [reflexivity|congruence].
  - set (f := fun kv : string * pyobj =>
                let (k, x) := kv in rbind (json_dump x) (fun j => Ok (k, j))).
    set (g := fun kv : string * json => (fst kv, json_load (snd kv))).
    assert (Hd : exists js, map_result f d = Ok js /\ map g js = d).
    { apply map_result_roundtrip with (ok := fun kv => json_native (snd kv)); [|exact Hnat].
      eapply Forall_impl; [exact IH|]. intros [k x] Hx Hok. simpl in *.
      destruct (Hx Hok) as (j & Hj & Hl). exists (k, j). unfold f, g. rewrite Hj. simpl.
      split; [reflexivity|congruence]. }
    destruct Hd as (js & Hmap & Hload).
    exists (JObj js). fold f. rewrite Hmap. simpl. split; [reflexivity|].
    fold g. congruence.
Qed.

Lemma embedding_native (qs : list Q) : forallb json_native (map PyFloat qs) = true.
Proof. induction qs as [|q qs IH]; [reflexivity|exact IH]. Qed.

Lemma nodes_native (ns : list GraphNode) :
  forallb node_json_native ns = true -> forallb json_native (map node_to_py ns) = true.
Proof.
  induction ns as [|n ns IH]; [reflexivity|]. simpl. intros H.
  apply andb_true_iff in H as [Hn Hns]. rewrite (IH Hns), andb_true_r.
  unfold node_json_native in Hn. simpl in Hn. rewrite Hn. simpl.
  rewrite embedding_native. reflexivity.
Qed.

Lemma edges_native (es : list GraphEdge) :
  forallb edge_json_native es = true -> forallb json_native (map edge_to_py es) = true.
Proof.
  induction es as [|e es IH]; [reflexivity|]. simpl. intros H.
  apply andb_true_iff in H as [He Hes]. rewrite (IH Hes), andb_true_r.
  unfold edge_json_native in He. simpl in He. rewrite He. reflexivity.
Qed.

(** The fields of a builder made by [add_node] and [add_edge] are values
    JSON has when the attributes of its nodes and edges are. *)
Lemma builder_of_native (w : World) :
  forallb node_json_native (nodes w) = true ->
  forallb edge_json_native (edges w) = true ->
  json_native (b_nodes (builder_of w)) = true /\ json_native (b_edges (builder_of w)) = true.
Proof.
  intros Hns Hes. split; [apply nodes_native, Hns|apply edges_native, Hes].
Qed.

(** C9, as amended. When [self.nodes] and [self.edges] hold only values JSON
    has (no tuple, no bytes) and [open(filepath, 'w')] is not refused,
    [save_to_file] succeeds and leaves the two fields as they were, and
    [load_from_file] of that file into any other builder that sees the same
    files succeeds and makes its two fields equal to the saved ones,
    whatever it held before. *)
Theorem save_load_roundtrip (filepath : string) (self : Builder) :
  json_native (b_nodes self) = true ->
  json_native (b_edges self) = true ->
  (forall e, b_files self !! filepath <> Some (FRefused e)) ->
  exists self1,
    save_to_file filepath self = (Ok tt, self1)
    /\ b_nodes self1 = b_nodes self /\ b_edges self1 = b_edges self
    /\ forall other : Builder,
         b_files other = b_files self1 ->
         load_from_file filepath other
         = (Ok tt, mkBuilder (b_nodes self) (b_edges self) (b_files other)).
Proof.
  intros Hns Hes Hopen. unfold save_to_file.
  set (doc := PyDict [("nodes", b_nodes self); ("edges", b_edges self)]).
  assert (Hnat : json_native doc = true).
  { cbn [doc json_native forallb snd]. rewrite Hns, Hes. reflexivity. }
  destruct (json_roundtrip doc Hnat) as (j & Hdump & Hload).
  rewrite Hdump.
  assert (Hsave : match b_files self !! filepath with
                  | Some (FRefused e) => (Raise e, self)
                  | _ => (Ok tt, mkBuilder (b_nodes self) (b_edges self)
                                   (<[filepath := FDoc j]> (b_files self)))
                  end
                  = (Ok tt, mkBuilder (b_nodes self) (b_edges self)
                              (<[filepath := FDoc j]> (b_files self)))).
  { destruct (b_files self !! filepath) as [[| |e]|] eqn:Hfile; try reflexivity.
    exfalso. exact (Hopen e eq_refl). }
  rewrite Hsave. eexists. split; [reflexivity|].
  split; [reflexivity|]. split; [reflexivity|].
  intros other Hfiles. unfold load_from_file. rewrite Hfiles. cbn [b_files].
  rewrite lookup_insert_eq, Hload. reflexivity.
Qed.

(** C9, as stated, fails for a node whose attributes hold a tuple: the save
    succeeds, the load into a builder with no nodes succeeds, and the loaded
    node holds a list where the saved one held the tuple. *)
Lemma save_load_tuple_becomes_list :
  let saved := save_to_file "graph.json" (builder_of tuple_world) in
  let loaded :=
    load_from_file "graph.json" (mkBuilder (PyList []) (PyList []) (b_files (snd saved))) in
  fst saved = Ok tt
  /\ fst loaded = Ok tt
  /\ b_nodes (snd loaded)
     = PyList [PyDict [("id", PyStr "node_0"); ("kind", PyStr "generic_data");
                       ("attributes", PyDict [("position", PyList [PyInt 1; PyInt 2])]);
                       ("embedding", PyList [PyFloat 1; PyFloat 0])]]
  /\ b_nodes (snd loaded) <> b_nodes (builder_of tuple_world).
Proof.
  vm_compute. repeat split; discriminate.
Qed.

(** A raw-bytes image payload cannot be saved at all. *)
Lemma save_bytes_raises :
  fst (save_to_file "graph.json" (builder_of bytes_world)) = Raise TypeError.
Proof. reflexivity. Qed.

(** A save below a directory that does not exist is refused by [open]; the
    builder and the files stay as they were. *)
Lemma save_without_directory :
  save_to_file "missing/graph.json"
    (mkBuilder (b_nodes (builder_of saved_world)) (b_edges (builder_of saved_world))
       no_directory)
  = (Raise FileNotFoundError,
     mkBuilder (b_nodes (builder_of saved_world)) (b_edges (builder_of saved_world))
       no_directory).
Proof. reflexivity. Qed.

(** The ranking scenario of the spec: of the tied [v1] and [v3], [v1], inserted
    first, ranks above [v3]; the third place goes to [v0], inserted before the
    equally scored [v4]. *)
Lemma ranking_scenario :
  sim_id <$> rank_nodes example_env ranking_nodes ranking_query 3 = ["v1"; "v3"; "v0"].
Proof. reflexivity. Qed.

(** ** The theorems at concrete inputs *)

Lemma hash_function_indices_in_range_witness :
  1 <= 1024
  /\ match hash_function 1024 unit_features two_phase_gen with
     | (Ok idx, _) =>
         length (shape unit_features) = 3%nat
         /\ Forall (fun z => 0 <= z < 1024) (data idx)
         /\ forall (weight : list (list Q)) (hidden : nat),
              Z.of_nat (length weight) = 1024 -> is_ok (embedding weight hidden idx) = true
     | (Raise _, _) => length (shape unit_features) <> 3%nat
     end.
Proof.
  split; [lia|].
  apply (hash_function_indices_in_range 1024 unit_features two_phase_gen). lia.
Defined.

Lemma extract_raises_on_nonempty_witness :
  [text_item] <> []
  /\ exists e,
       fst (extract_consciousness_representation
              (with_ahin example_ahin example_env) [text_item] two_phase_gen) = Raise e.
Proof.
  split; [discriminate|].
  apply (extract_raises_on_nonempty example_ahin example_env [text_item] two_phase_gen).
  discriminate.
Defined.


Lemma save_load_roundtrip_witness :
  json_native (b_nodes (builder_of saved_world)) = true
  /\ json_native (b_edges (builder_of saved_world)) = true
  /\ exists self1,
       save_to_file "graph.json" (builder_of saved_world) = (Ok tt, self1)
       /\ b_nodes self1 = b_nodes (builder_of saved_world)
       /\ b_edges self1 = b_edges (builder_of saved_world)
       /\ load_from_file "graph.json" (mkBuilder (PyList []) (PyInt 7) (b_files self1))
          = (Ok tt, mkBuilder (b_nodes (builder_of saved_world))
                      (b_edges (builder_of saved_world)) (b_files self1)).
Proof.
  split; [reflexivity|]. split; [reflexivity|].
  destruct (save_load_roundtrip "graph.json" (builder_of saved_world) eq_refl eq_refl)
    as (self1 & Hsave & Hn & He & Hload).
  { intros e. discriminate. }
  exists self1. split; [exact Hsave|]. split; [exact Hn|]. split; [exact He|].
  exact (Hload (mkBuilder (PyList []) (PyInt 7) (b_files self1)) eq_refl).
Defined.

(** * Further properties of the code *)

(** ** [hash_function] position by position *)

Lemma combine_step_map {A} (hs : Z) (f g : A -> Z) (l : list A) :
  combine_step hs (map f l) (map g l)
  = map (fun r => wrap64 (f r * 256 + g r) mod hs) l.
Proof.
  unfold combine_step. induction l as [|r l IH]; [reflexivity|].
  simpl. f_equal. exact IH.
Qed.

Lemma hash_function_rows (hs : Z) (x : Tensor Q) (g : Gen) (b s d : nat) :
  shape x = [b; s; d] -> hs <> 0 ->
  hash_function hs x g
  = (Ok (mkTensor [b; s] (map (row_hash hs) (sign_rows (drawn_basis g d) x))),
     mkGen (samples g) (consumed g + d * 32)).
Proof.
  intros Hsh Hhs. unfold hash_function, sign_rows. rewrite Hsh. cbn [last].
  unfold bind at 1. unfold randn at 1. fold (drawn_basis g d).
  unfold matmul. rewrite Hsh. cbn [shape drawn_basis reverse rev_append].
  rewrite Nat.eqb_refl. unfold bind at 1, lift_result at 1. cbn [data shape map foldl].
  destruct (Z.eqb_spec hs 0) as [|_]; [contradiction|].
  unfold ret. f_equal. f_equal. f_equal.
  set (R := rows 32 (b * s) _).
  rewrite (combine_step_map hs (fold_segment 0) (fold_segment 8) R).
  rewrite (combine_step_map hs _ (fold_segment 16) R).
  rewrite (combine_step_map hs _ (fold_segment 24) R).
  unfold row_hash. cbn [foldl]. reflexivity.
Qed.

Lemma wrap64_small (z : Z) : 0 <= z < 2 ^ 63 -> wrap64 z = z.
Proof.
  intros Hz. unfold wrap64.
  change (2 ^ 63) with 9223372036854775808 in *.
  change (2 ^ 64) with 18446744073709551616.
  rewrite Z.mod_small by lia. lia.
Qed.

Lemma shift_mod (a d hs : Z) :
  0 < hs -> (a mod hs * 256 + d) mod hs = (a * 256 + d) mod hs.
Proof.
  intros Hhs. rewrite <- Z.add_mod_idemp_l by lia.
  rewrite Z.mul_mod_idemp_l by lia. rewrite Z.add_mod_idemp_l by lia. reflexivity.
Qed.

(** A digit is a number between 0 and 255. *)
Lemma segment_value_range (seg : list Q) :
  Forall is_bit seg -> 0 <= to_long (Qsum (zip_with Qmult seg power)) <= 255.
Proof.
  intros H.
  do 9 (destruct seg as [|? seg];
        [vm_compute; split; discriminate
        |inversion H as [|? ? [-> | ->] H']; clear H; rename H' into H]);
    vm_compute; split; discriminate.
Qed.

Lemma fold_segment_range (i : nat) (bits : list Q) :
  Forall is_bit bits -> 0 <= fold_segment i bits <= 255.
Proof.
  intros H. unfold fold_segment. apply segment_value_range.
  apply Forall_take, Forall_drop, H.
Qed.

Lemma sign_rows_bits (basis x : Tensor Q) : Forall (Forall is_bit) (sign_rows basis x).
Proof.
  unfold sign_rows.
  destruct (shape x) as [|b [|s [|d [|e sh]]]]; try constructor.
  destruct (matmul x basis) as [p|]; [|constructor].
  unfold rows. apply Forall_fmap, Forall_forall. intros r _.
  apply Forall_take, Forall_drop, Forall_fmap, Forall_forall. intros q _.
  unfold is_bit, binarize. simpl. destruct (Qle_bool q 0); auto.
Qed.

Lemma sign_rows_length (x : Tensor Q) (g : Gen) (b s d : nat) :
  shape x = [b; s; d] -> length (sign_rows (drawn_basis g d) x) = (b * s)%nat.
Proof.
  intros Hsh. unfold sign_rows, matmul. rewrite Hsh.
  cbn [reverse rev_append shape drawn_basis]. rewrite Nat.eqb_refl.
  unfold rows. rewrite length_map, length_seq. reflexivity.
Qed.

Lemma row_hash_closed (hs : Z) (bits : list Q) :
  1 <= hs <= 2 ^ 55 -> Forall is_bit bits -> row_hash hs bits = sign_word bits mod hs.
Proof.
  intros Hhs Hbits. unfold row_hash, sign_word. cbn [foldl].
  pose proof (fold_segment_range 0 bits Hbits) as H0.
  pose proof (fold_segment_range 8 bits Hbits) as H1.
  pose proof (fold_segment_range 16 bits Hbits) as H2.
  pose proof (fold_segment_range 24 bits Hbits) as H3.
  set (d0 := fold_segment 0 bits) in *. set (d1 := fold_segment 8 bits) in *.
  set (d2 := fold_segment 16 bits) in *. set (d3 := fold_segment 24 bits) in *.
  change (2 ^ 55) with 36028797018963968 in Hhs.
  assert (Hs : forall c d, 0 <= c < Z.max hs 256 -> 0 <= d <= 255 ->
                           wrap64 (c * 256 + d) = c * 256 + d).
  { intros c d Hc Hd. apply wrap64_small.
    change (2 ^ 63) with 9223372036854775808. lia. }
  rewrite (Hs d0 d1) by lia.
  pose proof (Z.mod_pos_bound (d0 * 256 + d1) hs ltac:(lia)) as Hc1.
  rewrite (Hs _ d2) by lia.
  pose proof (Z.mod_pos_bound ((d0 * 256 + d1) mod hs * 256 + d2) hs ltac:(lia)) as Hc2.
  rewrite (Hs _ d3) by lia.
  rewrite <- (shift_mod (((d0 * 256 + d1) * 256) + d2) d3 hs) by lia.
  rewrite <- (shift_mod (d0 * 256 + d1) d2 hs) by lia.
  reflexivity.
Qed.

(** X1. For a three-dimensional input and [1 <= hash_size <= 2^55], the
    bucket of a position is the base-256 number formed by its four digits
    (the 32 sign bits of the projection, little-endian inside each digit,
    first digit leading), reduced modulo [hash_size]: the intermediate
    reductions and the 64-bit arithmetic change nothing. *)
Theorem hash_function_closed_form (hs : Z) (x : Tensor Q) (g : Gen) (b s d : nat) :
  shape x = [b; s; d] -> 1 <= hs <= 2 ^ 55 ->
  hash_function hs x g
  = (Ok (mkTensor [b; s]
           (map (fun bits => sign_word bits mod hs) (sign_rows (drawn_basis g d) x))),
     mkGen (samples g) (consumed g + d * 32)).
Proof.
  intros Hsh Hhs. rewrite (hash_function_rows hs x g b s d Hsh) by lia.
  f_equal. f_equal. f_equal.
  apply Forall_fmap_ext_1. eapply Forall_impl; [apply sign_rows_bits|].
  intros bits Hbits. apply row_hash_closed; assumption.
Qed.

(** X2. When [hash_size] divides 65536 (the default 1024 does), the bucket of
    a position is decided by its last two digits alone: the signs of the
    first sixteen projections never reach the result. *)
Theorem hash_function_ignores_leading_digits (hs : Z) (x : Tensor Q) (g : Gen)
    (b s d : nat) :
  shape x = [b; s; d] -> 1 <= hs -> (hs | 65536) ->
  hash_function hs x g
  = (Ok (mkTensor [b; s]
           (map (fun bits => (fold_segment 16 bits * 256 + fold_segment 24 bits) mod hs)
                (sign_rows (drawn_basis g d) x))),
     mkGen (samples g) (consumed g + d * 32)).
Proof.
  intros Hsh Hhs [k Hk].
  assert (Hle : hs <= 65536) by (apply Z.divide_pos_le; [lia|exists k; exact Hk]).
  rewrite (hash_function_rows hs x g b s d Hsh) by lia.
  f_equal. f_equal. f_equal.
  apply Forall_fmap_ext_1. eapply Forall_impl; [apply sign_rows_bits|].
  intros bits Hbits. cbv beta.
  rewrite row_hash_closed; [|change (2 ^ 55) with 36028797018963968; lia|exact Hbits].
  unfold sign_word.
  replace (((fold_segment 0 bits * 256 + fold_segment 8 bits) * 256 + fold_segment 16 bits)
           * 256 + fold_segment 24 bits)
    with (fold_segment 16 bits * 256 + fold_segment 24 bits
          + (fold_segment 0 bits * 256 + fold_segment 8 bits) * 65536) by ring.
  rewrite Hk, Z.mul_assoc. apply Z_mod_plus_full.
Qed.

Lemma Qsum_zero (l : list Q) : Forall (fun q => q == 0)%Q l -> (Qsum l == 0)%Q.
Proof.
  induction 1 as [|q l Hq _ IH]; simpl; [reflexivity|].
  rewrite Hq, IH. reflexivity.
Qed.

Lemma dot_zero (a b : list Q) : Forall (fun q => q == 0)%Q a -> (dot a b == 0)%Q.
Proof.
  intros Ha. unfold dot. apply Qsum_zero. revert b.
  induction Ha as [|q a Hq _ IH]; intros [|p b]; simpl; constructor.
  - rewrite Hq. ring.
  - apply IH.
Qed.

Lemma binarize_zero (p : Q) : (p == 0)%Q -> binarize p = 0%Q.
Proof.
  intros Hp. unfold binarize.
  assert (H : Qle_bool p 0 = true) by (apply Qle_bool_iff; rewrite Hp; apply Qle_refl).
  rewrite H. reflexivity.
Qed.

Lemma segment_value_zero (seg : list Q) :
  Forall (fun q => q = 0%Q) seg -> to_long (Qsum (zip_with Qmult seg power)) = 0.
Proof.
  intros H.
  do 9 (destruct seg as [|? seg];
        [reflexivity|inversion H as [|? ? -> H']; clear H; rename H' into H]);
    reflexivity.
Qed.

Lemma sign_rows_zero (basis x : Tensor Q) :
  Forall (fun q => q == 0)%Q (data x) ->
  Forall (Forall (fun q => q = 0%Q)) (sign_rows basis x).
Proof.
  intros Hx. unfold sign_rows.
  destruct (shape x) as [|b [|s [|d [|e sh]]]] eqn:Hsh; try constructor.
  unfold matmul. rewrite Hsh. cbn [reverse rev_append].
  destruct (shape basis) as [|d' [|n [|? ?]]]; try constructor.
  destruct (Nat.eqb d d'); [|constructor]. cbn [data].
  unfold rows at 1. apply Forall_fmap, Forall_forall. intros r _.
  apply Forall_take, Forall_drop, Forall_fmap.
  apply Forall_concat, Forall_fmap, Forall_forall. intros row Hrow.
  apply Forall_fmap, Forall_forall. intros j _. cbv beta. simpl.
  apply binarize_zero, dot_zero.
  unfold rows in Hrow. apply list_elem_of_fmap in Hrow as (i & -> & _).
  apply Forall_take, Forall_drop, Hx.
Qed.

(** X3. An all-zero feature tensor lands in bucket 0 at every position,
    whatever basis the generator hands out and whatever the table size: no
    projection is positive, so every sign bit is 0. *)
Theorem hash_function_zero_features (hs : Z) (x : Tensor Q) (g : Gen) (b s d : nat) :
  shape x = [b; s; d] -> 1 <= hs ->
  Forall (fun q => q == 0)%Q (data x) ->
  fst (hash_function hs x g) = Ok (mkTensor [b; s] (replicate (b * s) 0)).
Proof.
  intros Hsh Hhs Hx. rewrite (hash_function_rows hs x g b s d Hsh) by lia.
  cbn [fst]. f_equal. f_equal.
  pose proof (sign_rows_zero (drawn_basis g d) x Hx) as Hz.
  rewrite <- (sign_rows_length x g b s d Hsh).
  induction Hz as [|bits rs Hbits _ IH]; [reflexivity|].
  cbn [map length replicate]. f_equal; [|exact IH].
  unfold row_hash, fold_segment. cbn [foldl].
  rewrite !segment_value_zero by (apply Forall_take, Forall_drop, Hbits).
  reflexivity.
Qed.

(** X4. A call of [hash_function] on a tensor whose last dimension is [d]
    draws exactly [32 * d] samples, also when it raises afterwards for a
    tensor that is not three-dimensional; on a [(b, s, d)] tensor and with
    a nonzero [hash_size] it returns a [(b, s)] tensor of [b * s] indices. *)
Theorem hash_function_draws_and_shape (hs : Z) (x : Tensor Q) (g : Gen) (d : nat) :
  last (shape x) = Some d ->
  snd (hash_function hs x g) = mkGen (samples g) (consumed g + d * 32)
  /\ (forall b s, shape x = [b; s; d] -> hs <> 0 ->
        exists idx, fst (hash_function hs x g) = Ok idx
                    /\ shape idx = [b; s] /\ length (data idx) = (b * s)%nat).
Proof.
  intros Hlast. split.
  - unfold hash_function. rewrite Hlast.
    unfold bind at 1. unfold randn at 1.
    unfold bind at 1. unfold lift_result at 1.
    destruct (matmul x _) as [p|e]; [|reflexivity].
    destruct (shape x) as [|b [|s [|d' [|e sh]]]]; try reflexivity.
    cbn [map]. destruct (Z.eqb hs 0); reflexivity.
  - intros b s Hsh Hhs. rewrite (hash_function_rows hs x g b s d Hsh Hhs).
    eexists. split; [reflexivity|]. split; [reflexivity|].
    cbn [data]. rewrite length_map. apply sign_rows_length, Hsh.
Qed.

(** ** [forward] *)

Lemma hash_function_indices_in_range_any (hs : Z) (x : Tensor Q) (g : Gen) :
  1 <= hs ->
  match hash_function hs x g with
  | (Ok idx, _) => Forall (fun z => 0 <= z < hs) (data idx)
  | (Raise _, _) => True
  end.
Proof.
  intros Hhs. destruct (shape x) as [|b [|s [|d [|e sh]]]] eqn:Hsh.
  5: { unfold hash_function. rewrite Hsh.
       destruct (last _); [|exact I].
       unfold bind at 1. unfold randn at 1. unfold bind at 1. unfold lift_result at 1.
       destruct (matmul x _); exact I. }
  4: { rewrite (hash_function_rows hs x g b s d Hsh) by lia. cbn [data].
       apply Forall_fmap, Forall_forall. intros bits _. unfold row_hash. cbn [foldl].
       apply Z.mod_pos_bound. lia. }
  all: unfold hash_function; rewrite Hsh; cbn [last]; try exact I;
    unfold bind at 1; unfold randn at 1; unfold bind at 1; unfold lift_result at 1;
    destruct (matmul x _); exact I.
Qed.




(** ** [combine_features] *)

Lemma padded_feature (d : nat) (t : Tensor Q) :
  shape t = [d] \/ (exists k, shape t = [k; d]) ->
  let p := if Nat.eqb (length (shape t)) 1 then unsqueeze0 t else t in
  shape p = [feature_rows t; d] /\ data p = data t.
Proof.
  unfold feature_rows. intros [H | [k H]]; rewrite H; simpl.
  - rewrite H. split; reflexivity.
  - split; [exact H|reflexivity].
Qed.

(** X6. [combine_features] turns a nonempty list of feature arrays that are
    vectors of length [d] or [(k, d)] matrices into one [(1, n, d)] tensor,
    [n] being the total number of rows (one per vector, [k] per matrix); its
    storage is the arrays' storage in list order. *)
Theorem combine_features_rows (t : Tensor Q) (ts : list (Tensor Q)) (d : nat) :
  Forall (fun u => shape u = [d] \/ exists k, shape u = [k; d]) (t :: ts) ->
  combine_features (t :: ts)
  = Ok (mkTensor [1%nat; foldr Nat.add 0%nat (map feature_rows (t :: ts)); d]
                 (concat (map data (t :: ts)))).
Proof.
  intros Hall. unfold combine_features.
  set (pad := fun tensor : Tensor Q =>
                if Nat.eqb (length (shape tensor)) 1 then unsqueeze0 tensor else tensor).
  assert (Hpad : Forall (fun u => shape (pad u) = [feature_rows u; d] /\ data (pad u) = data u)
                        (t :: ts)).
  { eapply Forall_impl; [exact Hall|]. intros u Hu. exact (padded_feature d u Hu). }
  assert (Hdata : map data (map pad (t :: ts)) = map data (t :: ts)).
  { clear -Hpad. induction Hpad as [|u us [_ Hu] _ IH]; [reflexivity|].
    cbn [map]. rewrite Hu, IH. reflexivity. }
  assert (Hrows : map (fun u => hd 0%nat (shape u)) (map pad (t :: ts))
                  = map feature_rows (t :: ts)).
  { clear -Hpad. induction Hpad as [|u us [Hu _] _ IH]; [reflexivity|].
    cbn [map]. rewrite Hu, IH. reflexivity. }
  assert (Hcheck : forallb (fun u => shape_eqb (tail (shape u)) [d]
                                     && negb (Nat.eqb (length (shape u)) 0))
                           (map pad (t :: ts)) = true).
  { clear -Hpad. induction Hpad as [|u us [Hu _] _ IH]; [reflexivity|].
    cbn [map forallb]. rewrite Hu, IH. cbn [tail length Nat.eqb negb]. unfold shape_eqb.
    rewrite bool_decide_eq_true_2 by reflexivity. reflexivity. }
  inversion Hpad as [|? ? [Ht _] _]; subst.
  unfold cat_dim0. remember (map pad (t :: ts)) as padded eqn:Hp.
  destruct padded as [|p0 ps]; [discriminate|].
  assert (Hp0 : shape p0 = [feature_rows t; d]) by (injection Hp as -> _; exact Ht).
  rewrite Hp0, Hcheck. cbn [rbind]. unfold unsqueeze0. cbn [shape data].
  rewrite Hrows, Hdata. reflexivity.
Qed.

(** X7. Feature vectors of different lengths cannot be combined: nothing is
    padded, and joining a vector of length [d1] with a later vector of
    another length raises. *)
Theorem combine_features_length_mismatch (t u : Tensor Q) (ts : list (Tensor Q))
    (d1 d2 : nat) :
  shape t = [d1] -> u ∈ ts -> shape u = [d2] -> d1 <> d2 ->
  combine_features (t :: ts) = Raise RuntimeError.
Proof.
  intros Ht Hin Hu Hne. unfold combine_features, cat_dim0.
  set (pad := fun tensor : Tensor Q =>
                if Nat.eqb (length (shape tensor)) 1 then unsqueeze0 tensor else tensor).
  assert (Hpt : shape (pad t) = [1%nat; d1]) by (unfold pad; rewrite Ht; simpl; f_equal; exact Ht).
  assert (Hpu : shape (pad u) = [1%nat; d2]) by (unfold pad; rewrite Hu; simpl; f_equal; exact Hu).
  cbn [map]. rewrite Hpt.
  match goal with
  | |- context [forallb ?c ?l] => destruct (forallb c l) eqn:Hall; [|reflexivity]
  end.
  exfalso. rewrite forallb_forall in Hall.
  assert (Hmem : In (pad u) (pad t :: map pad ts)).
  { right. apply in_map. apply list_elem_of_In. exact Hin. }
  specialize (Hall _ Hmem). cbv beta in Hall. rewrite Hpu in Hall.
  cbn [length Nat.eqb tail negb] in Hall.
  rewrite andb_true_r in Hall. unfold shape_eqb in Hall.
  apply bool_decide_eq_true in Hall. congruence.
Qed.

(** X8. The hash step applied to the combined features of [n >= 1] vectors
    of length [d] returns a [(1, n)] tensor: exactly one bucket per vector,
    each inside the table, for every table size [hash_size >= 1]. *)
Theorem hash_of_combined_features (hs : Z) (t : Tensor Q) (ts : list (Tensor Q))
    (d : nat) (g : Gen) :
  1 <= hs ->
  Forall (fun u => shape u = [d]) (t :: ts) ->
  exists x idx,
    combine_features (t :: ts) = Ok x
    /\ fst (hash_function hs x g) = Ok idx
    /\ shape idx = [1%nat; S (length ts)]
    /\ length (data idx) = S (length ts)
    /\ Forall (fun z => 0 <= z < hs) (data idx).
Proof.
  intros Hhs Hall.
  destruct (combine_features_shape t ts d Hall) as (x & Hx & Hsh).
  pose proof (hash_function_indices_in_range_any hs x g Hhs) as Hrange.
  exists x.
  rewrite (hash_function_rows hs x g 1 (S (length ts)) d Hsh) in Hrange |- * by lia.
  eexists. split; [exact Hx|]. split; [reflexivity|].
  split; [reflexivity|]. split; [|exact Hrange].
  cbn [data]. rewrite length_map, (sign_rows_length x g 1 (S (length ts)) d Hsh). lia.
Qed.

(** ** Edge cases of the graph builder *)

(** X12. For the empty item list the call needs no model and draws no random
    number: whatever is bound to [self.ahin_model], it returns the zero
    vector of length [unified_dim], a graph of the core node alone (its
    embedding that zero vector) and no edge, and leaves the builder holding
    exactly this graph. *)
Theorem generate_on_empty_input (env : Env) (w : World) :
  generate_consciousness_graph env [] w
  = (Ok (mkGraph (zeros (unified_dim env))
                 [mkNode (new_id env 0) "consciousness"
                    [("type", PyStr "core_consciousness");
                     ("timestamp", PyStr (now_isoformat env))]
                    (replicate (unified_dim env) 0%Q)]
                 []),
     mkWorld (rng w)
       [mkNode (new_id env 0) "consciousness"
          [("type", PyStr "core_consciousness"); ("timestamp", PyStr (now_isoformat env))]
          (replicate (unified_dim env) 0%Q)]
       [] (fs w)).
Proof. destruct w as [g ns es files]. reflexivity. Qed.

(** X13. With the network of [ai-model.py] bound to [self.ahin_model], a call
    on a nonempty item list raises and the graph the builder held before is
    gone: the builder is left with no nodes and no edges; the files are
    untouched. *)
Theorem generate_with_ahin_loses_graph (self : AHIN) (env : Env) (item : pydict)
    (rest : list pydict) (w : World) :
  exists e w',
    generate_consciousness_graph (with_ahin self env) (item :: rest) w = (Raise e, w')
    /\ nodes w' = [] /\ edges w' = [] /\ fs w' = fs w.
Proof.
  assert (Hne : item :: rest <> []) by discriminate.
  destruct (extract_raises_on_nonempty_any self env (item :: rest) (rng w) Hne) as [e He].
  eexists _, _. split; [apply generate_raises_cleared; exact He|].
  repeat split.
Qed.




(** ** [_get_node_by_id] *)

Lemma first_with_id_spec (node_id : string) (ns : list pyobj) :
  match first_with_id node_id ns with
  | Ok None =>
      Forall (fun node => exists i, py_item node "id" = Ok i /\ py_eq_str i node_id = false) ns
  | Ok (Some node) =>
      exists before after i,
        ns = before ++ node :: after
        /\ py_item node "id" = Ok i /\ py_eq_str i node_id = true
        /\ Forall (fun n => exists j, py_item n "id" = Ok j /\ py_eq_str j node_id = false)
                  before
  | Raise e =>
      exists before node after,
        ns = before ++ node :: after
        /\ py_item node "id" = Raise e
        /\ Forall (fun n => exists j, py_item n "id" = Ok j /\ py_eq_str j node_id = false)
                  before
  end.
Proof.
  induction ns as [|n ns IH]; cbn [first_with_id]; [constructor|].
  destruct (py_item n "id") as [i|e] eqn:Hid; cbn [rbind].
  - destruct (py_eq_str i node_id) eqn:Heq.
    + exists [], ns, i. split; [reflexivity|]. split; [exact Hid|]. split; [exact Heq|constructor].
    + assert (Hn : exists j, py_item n "id" = Ok j /\ py_eq_str j node_id = false)
        by (exists i; split; assumption).
      destruct (first_with_id node_id ns) as [[node|]|e].
      * destruct IH as (before & after & k & -> & Hk & Hmatch & Hbefore).
        exists (n :: before), after, k. split; [reflexivity|]. split; [exact Hk|].
        split; [exact Hmatch|]. constructor; assumption.
      * constructor; assumption.
      * destruct IH as (before & node & after & -> & Hnode & Hbefore).
        exists (n :: before), node, after. split; [reflexivity|]. split; [exact Hnode|].
        constructor; assumption.
  - exists [], n, ns. split; [reflexivity|]. split; [exact Hid|constructor].
Qed.

(** On a builder made by [add_node], the lookup over the fields as they are
    is the lookup over the nodes. *)
Lemma get_node_by_id_of_world (node_id : string) (w : World) :
  _get_node_by_id node_id w
  = (Ok (List.find (fun node => String.eqb (n_id node) node_id) (nodes w)), w)
  /\ _get_node_by_id_any node_id (builder_of w)
     = (Ok (node_to_py <$> List.find (fun node => String.eqb (n_id node) node_id) (nodes w)),
        builder_of w).
Proof.
  split; [reflexivity|].
  unfold _get_node_by_id_any, builder_of. cbn [b_nodes]. f_equal.
  induction (nodes w) as [|n ns IH]; [reflexivity|].
  cbn [map first_with_id List.find].
  change (py_item (node_to_py n) "id") with (@Ok pyobj (PyStr (n_id n))).
  cbn [rbind py_eq_str]. destruct (String.eqb (n_id n) node_id); [reflexivity|exact IH].
Qed.

(** X15. On a builder whose [nodes] field is a list, [_get_node_by_id] never
    changes the builder and goes through the nodes in order, reading the
    [id] of each. It returns the first node whose id is [node_id]; it
    returns [None] when every node has an id and none is [node_id]; and it
    raises at the first node that has no [id] to read (a dict without the
    key, or a value that is no dict, as [load_from_file] may have put
    there) when no node before it has the id. In particular it never raises
    when every node is a dict with an [id]. *)
Theorem get_node_by_id_first_match (node_id : string) (self : Builder) (ns : list pyobj) :
  b_nodes self = PyList ns ->
  snd (_get_node_by_id_any node_id self) = self
  /\ match fst (_get_node_by_id_any node_id self) with
     | Ok None =>
         Forall (fun node => exists i, py_item node "id" = Ok i /\ py_eq_str i node_id = false)
                ns
     | Ok (Some node) =>
         exists before after i,
           ns = before ++ node :: after
           /\ py_item node "id" = Ok i /\ py_eq_str i node_id = true
           /\ Forall (fun n => exists j, py_item n "id" = Ok j /\ py_eq_str j node_id = false)
                     before
     | Raise e =>
         exists before node after,
           ns = before ++ node :: after
           /\ py_item node "id" = Raise e
           /\ Forall (fun n => exists j, py_item n "id" = Ok j /\ py_eq_str j node_id = false)
                     before
     end
  /\ (Forall (fun node => exists i, py_item node "id" = Ok i) ns ->
      exists found, fst (_get_node_by_id_any node_id self) = Ok found).
Proof.
  intros Hnodes. unfold _get_node_by_id_any. rewrite Hnodes. cbn [fst snd].
  split; [reflexivity|]. split; [apply first_with_id_spec|].
  intros Hids. pose proof (first_with_id_spec node_id ns) as Hspec.
  destruct (first_with_id node_id ns) as [found|e]; [exists found; reflexivity|].
  exfalso. destruct Hspec as (before & node & after & -> & Hnode & _).
  apply Forall_app in Hids as [_ Hids]. inversion Hids as [|? ? [i Hi] _]; subst.
  congruence.
Qed.

(** After a document with numbers in place of the nodes has been loaded,
    the lookup raises. *)
Lemma get_node_by_id_after_load :
  load_from_file "graph.json"
    (mkBuilder (PyList []) (PyList [])
       {["graph.json" := FDoc (JObj [("nodes", JArr [JInt 1; JInt 2])])]})
  = (Ok tt, mkBuilder (PyList [PyInt 1; PyInt 2]) (PyList [])
              {["graph.json" := FDoc (JObj [("nodes", JArr [JInt 1; JInt 2])])]})
  /\ fst (_get_node_by_id_any "node_0" loaded_numbers) = Raise TypeError.
Proof. split; reflexivity. Qed.

(** ** [process_text] *)

Lemma process_text_data (self : MultiModalDataProcessor) (text : list N) :
  data (process_text self text)
  = map (fun n => Z.of_N n # 256)
        (map (fun c => (c mod 256)%N) (take (max_text_length self) text)
         ++ replicate (max_text_length self - length text) 0%N).
Proof.
  unfold process_text, vector. cbn [data]. f_equal.
  destruct (Nat.ltb_spec (max_text_length self) (length text)) as [Hlong|Hshort].
  - rewrite length_map, length_take, Nat.min_l by lia.
    rewrite Nat.ltb_irrefl.
    replace (max_text_length self - length text)%nat with 0%nat by lia.
    rewrite app_nil_r. reflexivity.
  - rewrite take_ge by lia. rewrite length_map.
    destruct (Nat.ltb_spec (length text) (max_text_length self)) as [Hlt|Hge].
    + reflexivity.
    + replace (max_text_length self - length text)%nat with 0%nat by lia.
      rewrite app_nil_r. reflexivity.
Qed.

Lemma process_text_shape (self : MultiModalDataProcessor) (text : list N) :
  shape (process_text self text) = [length (data (process_text self text))].
Proof. reflexivity. Qed.

(** X16. For every text, [process_text] returns a vector of exactly
    [max_text_length] entries, each between 0 and 255/256. *)
Theorem process_text_contract (self : MultiModalDataProcessor) (text : list N) :
  shape (process_text self text) = [max_text_length self]
  /\ length (data (process_text self text)) = max_text_length self
  /\ Forall (fun q => 0 <= q /\ q <= 255 # 256)%Q (data (process_text self text)).
Proof.
  assert (Hlen : length (data (process_text self text)) = max_text_length self).
  { rewrite process_text_data, length_map, length_app, length_map, length_take,
      length_replicate. lia. }
  split; [rewrite process_text_shape, Hlen; reflexivity|]. split; [exact Hlen|].
  rewrite process_text_data. apply Forall_fmap, Forall_forall. intros n Hn.
  assert (Hbound : (n < 256)%N).
  { apply elem_of_app in Hn as [Hn|Hn].
    - apply list_elem_of_fmap in Hn as (c & -> & _). apply N.mod_lt. discriminate.
    - apply elem_of_replicate in Hn as [-> _]. reflexivity. }
  cbv beta. split; unfold Qle; cbn [Qnum Qden]; lia.
Qed.

(** X17. Only the first [max_text_length] code points of a text count: a
    text and its prefix of that length get the same vector. *)
Theorem process_text_truncates (self : MultiModalDataProcessor) (text : list N) :
  process_text self text = process_text self (take (max_text_length self) text).
Proof.
  assert (Hdata : data (process_text self text)
                  = data (process_text self (take (max_text_length self) text))).
  { rewrite !process_text_data, take_take, Nat.min_id, length_take.
    destruct (Nat.le_ge_cases (length text) (max_text_length self)) as [H|H].
    - rewrite Nat.min_r by lia. reflexivity.
    - rewrite Nat.min_l by lia.
      replace (max_text_length self - length text)%nat with 0%nat by lia.
      rewrite Nat.sub_diag. reflexivity. }
  destruct (process_text self text) as [sh dat] eqn:H1.
  destruct (process_text self (take (max_text_length self) text)) as [sh' dat'] eqn:H2.
  pose proof (process_text_shape self text) as S1.
  pose proof (process_text_shape self (take (max_text_length self) text)) as S2.
  rewrite H1 in S1. rewrite H2 in S2. cbn [shape data] in *. congruence.
Qed.

Lemma process_text_ext (self : MultiModalDataProcessor) (t u : list N) :
  data (process_text self t) = data (process_text self u) ->
  process_text self t = process_text self u.
Proof.
  intros Hd. pose proof (process_text_shape self t) as S1.
  pose proof (process_text_shape self u) as S2.
  destruct (process_text self t) as [sh dat], (process_text self u) as [sh' dat'].
  cbn [shape data] in *. congruence.
Qed.

(** X18. The vector keeps a code point only modulo 256: two texts whose
    code points agree modulo 256 position by position get the same vector
    (so a character above U+00FF is taken for a Latin-1 one). *)
Theorem process_text_aliases (self : MultiModalDataProcessor) (text other : list N) :
  map (fun c => (c mod 256)%N) text = map (fun c => (c mod 256)%N) other ->
  process_text self text = process_text self other.
Proof.
  intros Hres. apply process_text_ext. rewrite !process_text_data.
  assert (Hlen : length text = length other).
  { apply (f_equal length) in Hres. rewrite !length_map in Hres. exact Hres. }
  rewrite <- !firstn_map, Hres, Hlen. reflexivity.
Qed.

(** X19. The padding cannot be told from the text: a text shorter than
    [max_text_length] and the same text followed by a character whose code
    point is a multiple of 256 (NUL is one) get the same vector. *)
Theorem process_text_padding_is_nul (self : MultiModalDataProcessor) (text : list N)
    (k : N) :
  (length text < max_text_length self)%nat ->
  process_text self (text ++ [(256 * k)%N]) = process_text self text.
Proof.
  intros Hshort. apply process_text_ext. rewrite !process_text_data.
  rewrite length_app. cbn [length].
  rewrite !take_ge by (rewrite ?length_app; cbn [length]; lia).
  f_equal. rewrite (map_app _ text). cbn [map].
  replace ((256 * k) mod 256)%N with 0%N
    by (symmetry; rewrite N.mul_comm; apply N.Div0.mod_mul).
  rewrite <- app_assoc. f_equal.
  replace (max_text_length self - length text)%nat
    with (S (max_text_length self - (length text + 1)))%nat by lia.
  reflexivity.
Qed.

(** ** [_flatten_json] *)

Lemma key_in_elem (k : string) (d : pydict) : key_in k d = true <-> k ∈ fst <$> d.
Proof.
  unfold key_in. rewrite existsb_exists. split.
  - intros (kv & Hin & Heq). apply String.eqb_eq in Heq. subst k.
    apply list_elem_of_fmap_2, list_elem_of_In, Hin.
  - intros Hin. apply list_elem_of_fmap in Hin as (kv & -> & Hin).
    exists kv. split; [apply list_elem_of_In, Hin|apply String.eqb_refl].
Qed.

Lemma dict_set_keys (k : string) (v : pyobj) (d : pydict) :
  fst <$> dict_set k v d = if key_in k d then fst <$> d else (fst <$> d) ++ [k].
Proof.
  unfold dict_set. destruct (key_in k d).
  - induction d as [|kv d IH]; [reflexivity|].
    cbn [map fmap list_fmap]. f_equal; [|exact IH].
    destruct (String.eqb (fst kv) k); reflexivity.
  - rewrite fmap_app. reflexivity.
Qed.

Lemma dict_set_nonempty (k : string) (v : pyobj) (d : pydict) : dict_set k v d <> [].
Proof.
  unfold dict_set. destruct (key_in k d) eqn:Hin.
  - destruct d; [discriminate Hin|discriminate].
  - destruct d; discriminate.
Qed.

Lemma dict_set_NoDup (k : string) (v : pyobj) (d : pydict) :
  NoDup (fst <$> d) -> NoDup (fst <$> dict_set k v d).
Proof.
  intros Hd. rewrite dict_set_keys. destruct (key_in k d) eqn:Hin; [exact Hd|].
  apply NoDup_app. split; [exact Hd|]. split; [|apply NoDup_singleton].
  intros x Hx Hk. apply list_elem_of_singleton in Hk. subst x.
  apply key_in_elem in Hx. congruence.
Qed.

Lemma dict_set_values (Pv : pyobj -> Prop) (k : string) (v : pyobj) (d : pydict) :
  Pv v -> Forall (fun kv => Pv (snd kv)) d -> Forall (fun kv => Pv (snd kv)) (dict_set k v d).
Proof.
  intros Hv Hd. unfold dict_set. destruct (key_in k d).
  - apply Forall_fmap. eapply Forall_impl; [exact Hd|].
    intros kv Hkv. cbv beta. unfold compose. destruct (String.eqb (fst kv) k); assumption.
  - apply Forall_app. split; [exact Hd|]. constructor; [exact Hv|constructor].
Qed.

Lemma dict_update_values (Pv : pyobj -> Prop) (other d : pydict) :
  Forall (fun kv => Pv (snd kv)) other -> Forall (fun kv => Pv (snd kv)) d ->
  Forall (fun kv => Pv (snd kv)) (dict_update d other).
Proof.
  unfold dict_update. intros Ho. revert d.
  induction Ho as [|kv other Hkv _ IH]; intros d Hd; [exact Hd|].
  cbn [foldl]. apply IH, dict_set_values; assumption.
Qed.

Lemma dict_update_NoDup (other d : pydict) :
  NoDup (fst <$> d) -> NoDup (fst <$> dict_update d other).
Proof.
  unfold dict_update. revert d.
  induction other as [|kv other IH]; intros d Hd; [exact Hd|].
  cbn [foldl]. apply IH, dict_set_NoDup, Hd.
Qed.

Lemma dict_set_flat (k : string) (v : pyobj) (d : pydict) :
  is_container v = false -> flat d -> flat (dict_set k v d).
Proof.
  intros Hv [Hk Hl]. split; [apply dict_set_NoDup, Hk|].
  apply (dict_set_values (fun v => is_container v = false)); assumption.
Qed.

Lemma dict_update_flat (other d : pydict) :
  Forall (fun kv => is_container (snd kv) = false) other -> flat d ->
  flat (dict_update d other).
Proof.
  intros Ho [Hk Hl]. split; [apply dict_update_NoDup, Hk|].
  apply (dict_update_values (fun v => is_container v = false)); assumption.
Qed.

Lemma flatten_member_flat (flatten : pyobj -> string -> pydict) (flattened : pydict)
    (new_key : string) (value : pyobj) :
  (forall prefix, flat (flatten value prefix)) -> flat flattened ->
  flat (flatten_member flatten flattened new_key value).
Proof.
  intros Hrec Hfl. unfold flatten_member. destruct (is_container value) eqn:Hc.
  - apply dict_update_flat; [apply Hrec|exact Hfl].
  - apply dict_set_flat; assumption.
Qed.

Lemma flatten_json_flat (data : pyobj) : forall prefix, flat (_flatten_json data prefix).
Proof.
  assert (Hleaf : forall v prefix, is_container v = false -> flat [(prefix, v)]).
  { intros v prefix Hv. split; [apply NoDup_singleton|]. constructor; [exact Hv|constructor]. }
  induction data as [| b | z | q | s | b | l IH | l IH | d IH] using pyobj_nested_ind;
    intros prefix; try (apply Hleaf; reflexivity).
  - cbn [_flatten_json].
    assert (H : forall acc i,
               flat acc ->
               flat (foldl_enumerate
                       (fun flattened i item =>
                          flatten_member _flatten_json flattened (list_key prefix i) item)
                       acc i l)).
    { induction IH as [|item l Hitem _ IHl]; intros acc i Hacc; [exact Hacc|].
      cbn [foldl_enumerate]. apply IHl, flatten_member_flat; assumption. }
    apply H. split; constructor.
  - cbn [_flatten_json].
    assert (H : forall acc,
               flat acc ->
               flat (foldl (fun flattened kv =>
                              flatten_member _flatten_json flattened
                                (dict_key prefix (fst kv)) (snd kv))
                           acc d)).
    { induction IH as [|kv d Hkv _ IHd]; intros acc Hacc; [exact Hacc|].
      cbn [foldl]. apply IHd, flatten_member_flat; assumption. }
    apply H. split; constructor.
Qed.

Lemma flatten_member_values (Pv : pyobj -> Prop) (flatten : pyobj -> string -> pydict)
    (flattened : pydict) (new_key : string) (value : pyobj) :
  (forall prefix, Forall (fun kv => Pv (snd kv)) (flatten value prefix)) ->
  (is_container value = false -> Pv value) ->
  Forall (fun kv => Pv (snd kv)) flattened ->
  Forall (fun kv => Pv (snd kv)) (flatten_member flatten flattened new_key value).
Proof.
  intros Hrec Hv Hfl. unfold flatten_member. destruct (is_container value) eqn:Hc.
  - apply dict_update_values; [apply Hrec|exact Hfl].
  - apply dict_set_values; [apply Hv; reflexivity|exact Hfl].
Qed.

Lemma scalars_leaf (v : pyobj) : is_container v = false -> scalars v = [v].
Proof. destruct v; try reflexivity; discriminate. Qed.

Lemma flatten_json_values (data : pyobj) :
  forall prefix, Forall (fun kv => snd kv ∈ scalars data) (_flatten_json data prefix).
Proof.
  induction data as [| b | z | q | s | b | l IH | l IH | d IH] using pyobj_nested_ind;
    intros prefix; try (constructor; [left|constructor]).
  - cbn [_flatten_json]. rewrite Forall_forall in IH.
    assert (H : forall l' acc i,
               (forall item, item ∈ l' -> item ∈ l) ->
               Forall (fun kv => snd kv ∈ scalars (PyList l)) acc ->
               Forall (fun kv => snd kv ∈ scalars (PyList l))
                      (foldl_enumerate
                         (fun flattened i item =>
                            flatten_member _flatten_json flattened (list_key prefix i) item)
                         acc i l')).
    { induction l' as [|item l' IHl]; intros acc i Hsub Hacc; [exact Hacc|].
      cbn [foldl_enumerate].
      assert (Hitem : item ∈ l) by (apply Hsub; left).
      assert (Hin : forall v, v ∈ scalars item -> v ∈ scalars (PyList l)).
      { intros v Hv. cbn [scalars]. apply list_elem_of_In, in_concat.
        exists (scalars item). split; [apply in_map, list_elem_of_In, Hitem|].
        apply list_elem_of_In, Hv. }
      apply IHl; [intros x Hx; apply Hsub; right; exact Hx|].
      apply (flatten_member_values (fun v => v ∈ scalars (PyList l))); [| |exact Hacc].
      - intros p. eapply Forall_impl; [apply (IH item Hitem p)|].
        intros kv Hkv. apply Hin, Hkv.
      - intros Hc. apply Hin. rewrite (scalars_leaf item Hc). left. }
    apply H; [auto|constructor].
  - cbn [_flatten_json]. rewrite Forall_forall in IH.
    assert (H : forall d' acc,
               (forall kv, kv ∈ d' -> kv ∈ d) ->
               Forall (fun kv => snd kv ∈ scalars (PyDict d)) acc ->
               Forall (fun kv => snd kv ∈ scalars (PyDict d))
                      (foldl (fun flattened kv =>
                                flatten_member _flatten_json flattened
                                  (dict_key prefix (fst kv)) (snd kv))
                             acc d')).
    { induction d' as [|member d' IHd]; intros acc Hsub Hacc; [exact Hacc|].
      cbn [foldl].
      assert (Hmember : member ∈ d) by (apply Hsub; left).
      assert (Hin : forall v, v ∈ scalars (snd member) -> v ∈ scalars (PyDict d)).
      { intros v Hv. cbn [scalars]. apply list_elem_of_In, in_concat.
        exists (scalars (snd member)). split; [|apply list_elem_of_In, Hv].
        apply (in_map (fun kv => scalars (snd kv))), list_elem_of_In, Hmember. }
      apply IHd; [intros x Hx; apply Hsub; right; exact Hx|].
      apply (flatten_member_values (fun v => v ∈ scalars (PyDict d))); [| |exact Hacc].
      - intros p. eapply Forall_impl; [apply (IH member Hmember p)|].
        intros kv Hkv. apply Hin, Hkv.
      - intros Hc. apply Hin. rewrite (scalars_leaf _ Hc). left. }
    apply H; [auto|constructor].
Qed.

(** X20. Whatever the document and the prefix, every value of the flattened
    dict is one of the document's scalars, none is a dict or a list, and no
    two entries share a key. *)
Theorem flatten_json_scalars_only (data : pyobj) (prefix : string) :
  Forall (fun kv => snd kv ∈ scalars data /\ is_container (snd kv) = false)
         (_flatten_json data prefix)
  /\ NoDup (fst <$> _flatten_json data prefix).
Proof.
  destruct (flatten_json_flat data prefix) as [Hk Hl]. split; [|exact Hk].
  pose proof (flatten_json_values data prefix) as Hv.
  rewrite Forall_forall in Hv, Hl. apply Forall_forall. intros kv Hkv.
  split; [apply Hv, Hkv|apply Hl, Hkv].
Qed.

Lemma flatten_flat_dict (d : pydict) :
  forall acc : pydict,
    NoDup (fst <$> acc ++ d) ->
    Forall (fun kv => is_container (snd kv) = false) d ->
    foldl (fun flattened kv =>
             flatten_member _flatten_json flattened (dict_key "" (fst kv)) (snd kv)) acc d
    = acc ++ d.
Proof.
  induction d as [|[k v] d IH]; intros acc Hnd Hl; [rewrite app_nil_r; reflexivity|].
  inversion Hl as [|? ? Hv Hd]; subst. cbn [foldl fst snd].
  unfold flatten_member at 2. cbn [snd] in Hv. rewrite Hv.
  change (dict_key "" k) with k.
  assert (Hset : dict_set k v acc = acc ++ [(k, v)]).
  { unfold dict_set. destruct (key_in k acc) eqn:Hin; [exfalso|reflexivity].
    apply key_in_elem in Hin. rewrite fmap_app in Hnd.
    apply NoDup_app in Hnd as (_ & Hdisj & _). apply (Hdisj k Hin). left. }
  rewrite Hset, IH; [rewrite <- app_assoc; reflexivity| |exact Hd].
  rewrite <- app_assoc. exact Hnd.
Qed.

(** X21. Flattening is idempotent: the flattened dict, read as a document
    again and flattened with the empty prefix, is returned as it is. *)
Theorem flatten_json_idempotent (data : pyobj) (prefix : string) :
  _flatten_json (PyDict (_flatten_json data prefix)) "" = _flatten_json data prefix.
Proof.
  destruct (flatten_json_flat data prefix) as [Hk Hl].
  cbn [_flatten_json]. exact (flatten_flat_dict _ [] Hk Hl).
Qed.

Lemma dict_update_nil (d other : pydict) : dict_update d other = [] <-> d = [] /\ other = [].
Proof.
  unfold dict_update. split.
  - destruct other as [|kv other]; [cbn [foldl]; intros ->; split; reflexivity|].
    cbn [foldl]. intros H. exfalso.
    assert (Hne : dict_set (fst kv) (snd kv) d <> []) by apply dict_set_nonempty.
    revert H Hne. generalize (dict_set (fst kv) (snd kv) d).
    induction other as [|kv' other IH]; intros acc H Hne; [exact (Hne H)|].
    cbn [foldl] in H. exact (IH _ H (dict_set_nonempty _ _ _)).
  - intros [-> ->]. reflexivity.
Qed.

Lemma flatten_member_nil (flatten : pyobj -> string -> pydict) (flattened : pydict)
    (new_key : string) (value : pyobj) :
  (forall prefix, flatten value prefix = [] <-> hollow value = true) ->
  flatten_member flatten flattened new_key value = []
  <-> flattened = [] /\ hollow value = true.
Proof.
  intros Hrec. unfold flatten_member. destruct (is_container value) eqn:Hc.
  - rewrite dict_update_nil, Hrec. reflexivity.
  - split.
    + intros H. exfalso. exact (dict_set_nonempty _ _ _ H).
    + intros [_ H]. destruct value; discriminate.
Qed.

(** X22. The flattened dict is empty exactly for the documents that hold no
    scalar at all: empty dicts and lists, nested to any depth, leave no
    trace; a document with a scalar anywhere leaves an entry. *)
Theorem flatten_json_empty_iff_hollow (data : pyobj) (prefix : string) :
  _flatten_json data prefix = [] <-> hollow data = true.
Proof.
  revert prefix.
  induction data as [| b | z | q | s | b | l IH | l IH | d IH] using pyobj_nested_ind;
    intros prefix; try (cbn [_flatten_json hollow]; split; discriminate).
  - cbn [_flatten_json hollow].
    assert (H : forall acc i,
               foldl_enumerate (fun flattened i item =>
                                  flatten_member _flatten_json flattened (list_key prefix i) item)
                               acc i l = []
               <-> acc = [] /\ forallb hollow l = true).
    { induction IH as [|item l Hitem _ IHl]; intros acc i; cbn [foldl_enumerate forallb].
      - split; [intros ->; split; reflexivity|intros [-> _]; reflexivity].
      - rewrite IHl, (flatten_member_nil _ _ _ _ Hitem), andb_true_iff. tauto. }
    rewrite H. tauto.
  - cbn [_flatten_json hollow].
    assert (H : forall acc,
               foldl (fun flattened kv =>
                        flatten_member _flatten_json flattened (dict_key prefix (fst kv)) (snd kv))
                     acc d = []
               <-> acc = [] /\ forallb (fun kv => hollow (snd kv)) d = true).
    { induction IH as [|kv d Hkv _ IHd]; intros acc; cbn [foldl forallb].
      - split; [intros ->; split; reflexivity|intros [-> _]; reflexivity].
      - rewrite IHd, (flatten_member_nil _ _ _ _ Hkv), andb_true_iff. tauto. }
    rewrite H. tauto.
Qed.

(** X23. Flattening loses data when a dotted key meets a nested one: in a
    dict with the member [k1: {k2: v1}] followed by the member
    ["k1.k2": v2], the second overwrites the first, and only [v2] is left. *)
Theorem flatten_json_key_collision (k1 k2 : string) (v1 v2 : pyobj) :
  k1 <> "" -> is_container v1 = false -> is_container v2 = false ->
  _flatten_json (PyDict [(k1, PyDict [(k2, v1)]); (k1 +:+ "." +:+ k2, v2)]) ""
  = [(k1 +:+ "." +:+ k2, v2)].
Proof.
  intros Hk H1 H2.
  assert (Hkey : dict_key k1 k2 = k1 +:+ "." +:+ k2).
  { unfold dict_key. destruct (String.eqb_spec k1 ""); [contradiction|reflexivity]. }
  set (K := k1 +:+ "." +:+ k2) in *.
  assert (Hinner : _flatten_json (PyDict [(k2, v1)]) k1 = [(K, v1)]).
  { cbn [_flatten_json foldl fst snd]. unfold flatten_member. rewrite H1, Hkey. reflexivity. }
  assert (Hset : dict_set K v2 [(K, v1)] = [(K, v2)]).
  { unfold dict_set. cbn [key_in existsb fst]. rewrite String.eqb_refl.
    cbn [orb map fst]. rewrite String.eqb_refl. reflexivity. }
  cbn [_flatten_json foldl fst snd].
  change (dict_key "" k1) with k1. change (dict_key "" K) with K.
  unfold flatten_member at 2. cbn [is_container]. rewrite Hinner.
  unfold flatten_member. rewrite H2.
  change (dict_update [] [(K, v1)]) with [(K, v1)]. exact Hset.
Qed.

(** ** [_json_to_features] and [process_json] *)

Lemma add_at_zero (i : Z) (x : Q) (features : list Q) :
  (x == 0)%Q -> Forall (fun q => q == 0)%Q features ->
  Forall (fun q => q == 0)%Q (add_at i x features).
Proof.
  intros Hx Hf. unfold add_at. apply Forall_alter; [exact Hf|].
  intros y _ Hy. rewrite Hy, Hx. reflexivity.
Qed.

Lemma features_fold_zero (P : Platform) (self : MultiModalDataProcessor)
    (flattened : pydict) :
  (0 < feature_dim self)%nat ->
  Forall (fun kv => snd kv = PyNone \/ snd kv = PyBool false) flattened ->
  forall features,
    length features = feature_dim self -> Forall (fun q => q == 0)%Q features ->
    exists features',
      foldl (fun acc kv => rbind acc (fun features => features_step P self features kv))
            (Ok features) flattened = Ok features'
      /\ length features' = feature_dim self
      /\ Forall (fun q => q == 0)%Q features'.
Proof.
  intros Hdim Hall.
  induction Hall as [|kv flattened Hkv _ IH]; intros features Hlen Hzero.
  - exists features. split; [reflexivity|]. split; assumption.
  - cbn [foldl rbind]. unfold features_step at 2.
    destruct (Z.eqb_spec (Z.of_nat (feature_dim self)) 0) as [Hz|_]; [lia|].
    destruct Hkv as [-> | ->]; cbn [number_value].
    + apply IH; assumption.
    + apply IH.
      * unfold add_at. rewrite length_alter. exact Hlen.
      * apply add_at_zero; [reflexivity|exact Hzero].
Qed.

(** X24. [null] and [false] leave no trace in the features of a document:
    when these are its only scalars, [process_json] returns a vector of
    [feature_dim] entries that are all zero, as it does for the empty
    document. The branch that would add [-1.0] for [false] is never taken,
    a [bool] being an [int]. *)
Theorem process_json_null_and_false (P : Platform) (self : MultiModalDataProcessor)
    (document : pyobj) :
  (0 < feature_dim self)%nat ->
  Forall (fun v => v = PyNone \/ v = PyBool false) (scalars document) ->
  exists features,
    process_json P self (inr document) = Ok features
    /\ shape features = [feature_dim self]
    /\ length (data features) = feature_dim self
    /\ Forall (fun q => q == 0)%Q (data features).
Proof.
  intros Hdim Hscalars. unfold process_json, _json_to_features. cbn [rbind].
  assert (Hvalues : Forall (fun kv => snd kv = PyNone \/ snd kv = PyBool false)
                           (_flatten_json document "")).
  { eapply Forall_impl; [apply flatten_json_values|].
    intros kv Hkv. rewrite Forall_forall in Hscalars. apply Hscalars, Hkv. }
  destruct (features_fold_zero P self _ Hdim Hvalues (replicate (feature_dim self) 0%Q))
    as (features & -> & Hlen & Hzero).
  { apply length_replicate. }
  { apply Forall_replicate. reflexivity. }
  cbn [rbind]. eexists. split; [reflexivity|]. unfold vector. cbn [shape data].
  destruct (Qltb 0 (linalg_norm P features)).
  - rewrite length_map. split; [rewrite Hlen; reflexivity|]. split; [exact Hlen|].
    apply Forall_fmap. eapply Forall_impl; [exact Hzero|].
    intros q Hq. cbv beta. unfold compose. rewrite Hq. reflexivity.
  - split; [rewrite Hlen; reflexivity|]. split; assumption.
Qed.

(** ** [process_file]: the byte histogram *)

Lemma histogram_length (byte_array : list Byte.byte) : length (histogram byte_array) = 256%nat.
Proof. unfold histogram. rewrite length_map, length_seq. reflexivity. Qed.

Lemma histogram_perm (a b : list Byte.byte) : a ≡ₚ b -> histogram a = histogram b.
Proof.
  intros Hp. unfold histogram. apply map_ext. intros v.
  apply filter_length_perm, Hp.
Qed.

Lemma frequency_range (c n : nat) :
  (c <= n)%nat ->
  (0 <= inject_Z (Z.of_nat c) / inject_Z (Z.of_nat (Nat.max 1 n))
   /\ inject_Z (Z.of_nat c) / inject_Z (Z.of_nat (Nat.max 1 n)) <= 1)%Q.
Proof.
  intros Hc.
  assert (Hpos : (0 < inject_Z (Z.of_nat (Nat.max 1 n)))%Q).
  { change 0%Q with (inject_Z 0). rewrite <- Zlt_Qlt. lia. }
  split.
  - apply Qle_shift_div_l; [exact Hpos|]. rewrite Qmult_0_l.
    change 0%Q with (inject_Z 0). rewrite <- Zle_Qle. lia.
  - apply Qle_shift_div_r; [exact Hpos|]. rewrite Qmult_1_l.
    rewrite <- Zle_Qle. lia.
Qed.

Lemma frequencies_range (file_data : list Byte.byte) :
  Forall (fun q => 0 <= q /\ q <= 1)%Q
         (map (fun c => (inject_Z (Z.of_nat c)
                         / inject_Z (Z.of_nat (Nat.max 1 (length file_data))))%Q)
              (histogram file_data)).
Proof.
  apply Forall_fmap, Forall_fmap, Forall_forall. intros v _.
  apply frequency_range, filter_length_le.
Qed.

Lemma process_file_default (P : Platform) (self : MultiModalDataProcessor)
    (file_data : list Byte.byte) (file_type : string) :
  contains "image" file_type = false -> contains "json" file_type = false ->
  contains "text" file_type = false ->
  process_file P self file_data file_type = Ok (byte_features self file_data).
Proof. intros H1 H2 H3. unfold process_file. rewrite H1, H2, H3. reflexivity. Qed.

(** X25. For a file type that mentions neither [image] nor [json] nor
    [text], [process_file] returns a vector of [feature_dim] entries, each
    between 0 and 1, and every entry from position 256 on is zero: with the
    constructor's [feature_dim] of 512 the second half of the vector never
    carries anything. *)
Theorem process_file_byte_histogram (P : Platform) (self : MultiModalDataProcessor)
    (file_data : list Byte.byte) (file_type : string) :
  contains "image" file_type = false -> contains "json" file_type = false ->
  contains "text" file_type = false ->
  exists hist,
    process_file P self file_data file_type = Ok hist
    /\ shape hist = [feature_dim self]
    /\ length (data hist) = feature_dim self
    /\ Forall (fun q => 0 <= q /\ q <= 1)%Q (data hist)
    /\ Forall (fun q => q = 0%Q) (drop 256 (data hist)).
Proof.
  intros H1 H2 H3. rewrite (process_file_default P self file_data file_type H1 H2 H3).
  eexists. split; [reflexivity|]. unfold byte_features, vector. cbn [shape data].
  pose proof (frequencies_range file_data) as Hrange.
  set (hist := map _ (histogram file_data)) in *.
  assert (Hlen : length hist = 256%nat).
  { unfold hist. rewrite length_map. apply histogram_length. }
  rewrite Hlen. destruct (Nat.ltb_spec 256 (feature_dim self)) as [Hlt|Hge].
  - rewrite length_app, length_replicate, Hlen.
    split; [f_equal; lia|]. split; [lia|]. split.
    + apply Forall_app. split; [exact Hrange|].
      apply Forall_replicate. split; [apply Qle_refl|discriminate].
    + rewrite drop_app_length' by exact Hlen. apply Forall_replicate. reflexivity.
  - rewrite length_take, Hlen.
    split; [f_equal; lia|]. split; [lia|]. split.
    + apply Forall_take, Hrange.
    + rewrite drop_ge by (rewrite length_take; lia). constructor.
Qed.

(** X26. The default branch of [process_file] sees the bytes of a file but
    not their order: two files that are permutations of each other get the
    same vector. *)
Theorem process_file_order_blind (P : Platform) (self : MultiModalDataProcessor)
    (file_data other : list Byte.byte) (file_type : string) :
  contains "image" file_type = false -> contains "json" file_type = false ->
  contains "text" file_type = false ->
  file_data ≡ₚ other ->
  process_file P self file_data file_type = process_file P self other file_type.
Proof.
  intros H1 H2 H3 Hperm. rewrite !process_file_default by assumption.
  unfold byte_features. rewrite (histogram_perm _ _ Hperm), (Permutation_length Hperm).
  reflexivity.
Qed.

(** ** The [DataManager] *)

Lemma cache_get_del_ne (ref_id other : string) (c : list (string * CacheEntry)) :
  other <> ref_id -> cache_get other (cache_del ref_id c) = cache_get other c.
Proof.
  intros Hne. unfold cache_get, cache_del. f_equal.
  induction c as [|[k e] c IH]; [reflexivity|]. cbn [List.filter List.find fst].
  destruct (String.eqb_spec k ref_id) as [->|Hk]; cbn [negb List.find fst].
  - destruct (String.eqb_spec ref_id other) as [Heq|_]; [congruence|exact IH].
  - destruct (String.eqb k other); [reflexivity|exact IH].
Qed.

Lemma cache_get_del_eq (ref_id : string) (c : list (string * CacheEntry)) :
  cache_get ref_id (cache_del ref_id c) = None.
Proof.
  unfold cache_get, cache_del.
  induction c as [|[k e] c IH]; [reflexivity|]. cbn [List.filter fst].
  destruct (String.eqb k ref_id) eqn:Hk; cbn [negb]; [exact IH|].
  cbn [List.find fst]. rewrite Hk. exact IH.
Qed.

Lemma cache_get_set_eq (ref_id : string) (entry : CacheEntry) (c : list (string * CacheEntry)) :
  cache_get ref_id (cache_set ref_id entry c) = Some entry.
Proof.
  unfold cache_get, cache_set.
  destruct (existsb _ c) eqn:Hex.
  - induction c as [|[k e] c IH]; [discriminate|].
    cbn [existsb fst] in Hex. cbn [map List.find fst].
    destruct (String.eqb k ref_id) eqn:Hk; cbn [List.find fst]; rewrite Hk; [reflexivity|].
    apply IH. exact Hex.
  - induction c as [|[k e] c IH].
    + cbn [app List.find fst]. rewrite String.eqb_refl. reflexivity.
    + cbn [existsb fst] in Hex. apply orb_false_iff in Hex as [Hk Hex].
      cbn [app List.find fst]. rewrite Hk. apply IH, Hex.
Qed.

Lemma cache_set_elem (ref_id : string) (entry : CacheEntry) (c : list (string * CacheEntry)) :
  (ref_id, entry) ∈ cache_set ref_id entry c.
Proof.
  unfold cache_set. destruct (existsb _ c) eqn:Hex.
  - induction c as [|[k e] c IH]; [discriminate|].
    cbn [existsb fst] in Hex. cbn [map fst].
    destruct (String.eqb_spec k ref_id) as [->|Hk]; [left|].
    right. apply IH. exact Hex.
  - apply elem_of_app. right. left.
Qed.

Lemma owned_by_other (ref_id user other : string) (now : string)
    (c : list (string * CacheEntry)) :
  other <> user -> cache_get ref_id c = Some (mkEntry user now) ->
  owned_by ref_id other c = false.
Proof.
  intros Hne Hget. unfold owned_by. rewrite Hget. cbn [ce_user_address].
  apply String.eqb_neq. congruence.
Qed.

(** X27. [delete_data] touches no entry but the one asked for, and that one
    only for its owner: every other reference keeps its cache entry whatever
    happens; a caller who does not own the reference gets [False] and
    nothing changes, the storage client not being called; and when [True]
    is returned the caller owned the reference and its entry is gone. *)
Theorem delete_data_only_by_owner {S} (client : WalrusClient S)
    (ref_id user_address : string) (self self' : DataManager S) (r : result bool) :
  delete_data client ref_id user_address self = (r, self') ->
  (forall other, other <> ref_id ->
     cache_get other (cache self') = cache_get other (cache self))
  /\ (owned_by ref_id user_address (cache self) = false -> r = Ok false /\ self' = self)
  /\ (r = Ok true ->
      owned_by ref_id user_address (cache self) = true
      /\ cache_get ref_id (cache self') = None).
Proof.
  unfold delete_data, bind, get, call_walrus, modify, ret.
  destruct (owned_by ref_id user_address (cache self)) eqn:Howned.
  - destruct (walrus_delete client ref_id (walrus self)) as [[[|]|e] s];
      intros [= <- <-]; cbn [cache].
    + split; [intros other Hne; apply cache_get_del_ne, Hne|].
      split; [discriminate|]. intros _. split; [reflexivity|apply cache_get_del_eq].
    + split; [reflexivity|]. split; discriminate.
    + split; [reflexivity|]. split; discriminate.
  - intros [= <- <-]. split; [reflexivity|]. split; [split; reflexivity|discriminate].
Qed.

Lemma string_ltb_leb (a b : string) : String.ltb a b = true -> String.leb a b = true.
Proof.
  unfold String.ltb, String.leb. destruct (String.compare a b); try discriminate; reflexivity.
Qed.

Lemma string_not_ltb_leb (a b : string) : String.ltb a b = false -> String.leb b a = true.
Proof.
  unfold String.ltb, String.leb. rewrite (String.compare_antisym a b).
  destruct (String.compare b a); cbn [CompOpp]; try discriminate; reflexivity.
Qed.

Lemma insert_newest_perm {A} (key : A -> string) (x : A) (l : list A) :
  insert_newest key x l ≡ₚ x :: l.
Proof.
  induction l as [|y l IH]; simpl; [reflexivity|].
  destruct (String.ltb (key x) (key y)); [|reflexivity].
  rewrite IH. apply Permutation_swap.
Qed.

Lemma sort_newest_perm {A} (key : A -> string) (l : list A) : sort_newest key l ≡ₚ l.
Proof.
  induction l as [|x l IH]; simpl; [reflexivity|].
  rewrite insert_newest_perm, IH. reflexivity.
Qed.

Lemma insert_newest_sorted {A} (key : A -> string) (x : A) (l : list A) :
  Sorted (fun a b => String.leb (key b) (key a) = true) l ->
  Sorted (fun a b => String.leb (key b) (key a) = true) (insert_newest key x l).
Proof.
  induction 1 as [|y l Hsorted IH Hhd]; cbn [insert_newest].
  - repeat constructor.
  - destruct (String.ltb (key x) (key y)) eqn:Hlt.
    + constructor; [exact IH|].
      destruct l as [|z l]; cbn [insert_newest].
      * constructor. apply string_ltb_leb, Hlt.
      * destruct (String.ltb (key x) (key z)).
        -- constructor. inversion Hhd; assumption.
        -- constructor. apply string_ltb_leb, Hlt.
    + constructor; [constructor; assumption|].
      constructor. apply string_not_ltb_leb, Hlt.
Qed.

Lemma sort_newest_sorted {A} (key : A -> string) (l : list A) :
  Sorted (fun a b => String.leb (key b) (key a) = true) (sort_newest key l).
Proof.
  induction l as [|x l IH]; cbn [sort_newest foldr]; [constructor|].
  apply insert_newest_sorted, IH.
Qed.

(** X28. [list_user_data] changes nothing and lists exactly the cache entries
    of the asking user, each once, with the timestamp of its entry, newest
    first: no reference of another user is ever shown. *)
Theorem list_user_data_isolated {S} (user_address : string) (self : DataManager S) :
  exists refs,
    list_user_data user_address self = (Ok refs, self)
    /\ refs ≡ₚ map (fun kv => mkRef (fst kv) (ce_timestamp (snd kv)))
                  (List.filter (fun kv => String.eqb (ce_user_address (snd kv)) user_address)
                               (cache self))
    /\ Sorted (fun a b => String.leb (r_timestamp b) (r_timestamp a) = true) refs
    /\ Forall (fun r => exists entry,
                 (r_ref_id r, entry) ∈ cache self
                 /\ ce_user_address entry = user_address
                 /\ ce_timestamp entry = r_timestamp r) refs.
Proof.
  unfold list_user_data, bind, get, ret. eexists. split; [reflexivity|].
  split; [apply sort_newest_perm|]. split; [apply sort_newest_sorted|].
  apply Forall_forall. intros r Hr. rewrite sort_newest_perm in Hr.
  apply list_elem_of_fmap in Hr as ([k e] & -> & Hin).
  apply list_elem_of_In, filter_In in Hin as [Hin Howner].
  exists e. cbn [r_ref_id r_timestamp fst snd] in *.
  split; [apply list_elem_of_In, Hin|]. split; [apply String.eqb_eq, Howner|reflexivity].
Qed.

(** X29. The owner of a stored object whose [data] field is a list cannot
    get it back: when the cache names the caller as owner, the client
    answers a nonempty text and the text parses to a dict owned by the
    caller, [retrieve_processed_data] returns that dict unless its [data]
    is a list, in which case it fails on the unbound name [metadata]. *)
Theorem retrieve_list_data_fails {S} (P : Platform) (client : WalrusClient S)
    (ref_id user_address : string) (self : DataManager S) (s' : S)
    (c : N) (text : list N) (data_obj : pydict) (payload : pyobj) :
  owned_by ref_id user_address (cache self) = true ->
  walrus_retrieve client ref_id (walrus self) = (Ok (Some (c :: text)), s') ->
  json_loads P (c :: text) = Ok (PyDict data_obj) ->
  dict_get "user_address" data_obj = Some (PyStr user_address) ->
  dict_get "data" data_obj = Some payload ->
  retrieve_processed_data P client ref_id user_address self
  = (match payload with PyList _ => UnboundName "metadata" | _ => Found data_obj end,
     mkManager s' (cache self)).
Proof.
  intros Howned Hclient Hloads Howner Hdata.
  unfold retrieve_processed_data, call_walrus, dict_item.
  rewrite Howned, Hclient, Hloads, Howner. cbn [py_eq_str].
  rewrite String.eqb_refl, Hdata. destruct payload; reflexivity.
Qed.

(** X30. What one user stores is out of the reach of every other user: after
    a successful [store_processed_data] the reference is
    ["processed_" + uuid], the owner's listing shows it with the time of the
    call, and for any other user both [retrieve_processed_data] and
    [delete_data] refuse ([None], [False]) without calling the client or
    changing anything. *)
Theorem stored_data_is_private {S} (P : Platform) (client : WalrusClient S)
    (now uuid_hex : string) (payload : pyobj) (user_address other : string)
    (metadata : option pydict) (original_ref : option string)
    (self self1 : DataManager S) (ref_id : string) :
  store_processed_data P client now uuid_hex payload user_address metadata original_ref self
  = (Ok ref_id, self1) ->
  other <> user_address ->
  ref_id = "processed_" +:+ uuid_hex
  /\ (exists refs, list_user_data user_address self1 = (Ok refs, self1)
                   /\ mkRef ref_id now ∈ refs)
  /\ retrieve_processed_data P client ref_id other self1 = (NotFound, self1)
  /\ delete_data client ref_id other self1 = (Ok false, self1).
Proof.
  intros Hstore Hne. unfold store_processed_data in Hstore.
  unfold bind at 1, lift_result in Hstore.
  destruct (json_dumps P _) as [text|e]; [|discriminate].
  unfold bind at 1, call_walrus in Hstore.
  destruct (walrus_store client _ text (walrus self)) as [[stored|e] s]; [|discriminate].
  unfold bind, modify, ret in Hstore. cbn [walrus cache] in Hstore.
  injection Hstore as <- <-. split; [reflexivity|].
  set (ref_id := "processed_" +:+ uuid_hex).
  set (c1 := cache_set ref_id (mkEntry user_address now) (cache self)).
  assert (Hget : cache_get ref_id c1 = Some (mkEntry user_address now))
    by apply cache_get_set_eq.
  assert (Hnot : owned_by ref_id other c1 = false)
    by (apply (owned_by_other ref_id user_address other now); assumption).
  split; [|split].
  - unfold list_user_data, bind, get, ret. eexists. split; [reflexivity|].
    rewrite sort_newest_perm. cbn [cache]. fold c1.
    apply (list_elem_of_fmap_2' _ _ (ref_id, mkEntry user_address now)); [|reflexivity].
    apply list_elem_of_In, filter_In. split; [apply list_elem_of_In, cache_set_elem|].
    apply String.eqb_refl.
  - unfold retrieve_processed_data. cbn [cache]. fold c1. rewrite Hnot. reflexivity.
  - unfold delete_data, bind, get, ret. cbn [cache]. fold c1. rewrite Hnot. reflexivity.
Qed.

(** ** The further properties at concrete inputs *)

Lemma hash_function_closed_form_witness :
  shape unit_features = [1; 1; 1]%nat
  /\ 1 <= 1024 <= 2 ^ 55
  /\ hash_function 1024 unit_features two_phase_gen
     = (Ok (mkTensor [1; 1]%nat
              (map (fun bits => sign_word bits mod 1024)
                   (sign_rows (drawn_basis two_phase_gen 1) unit_features))),
        mkGen (samples two_phase_gen) (consumed two_phase_gen + 1 * 32)).
Proof.
  split; [reflexivity|]. split; [split; discriminate|].
  apply hash_function_closed_form; [reflexivity|split; discriminate].
Defined.

Lemma hash_function_ignores_leading_digits_witness :
  shape unit_features = [1; 1; 1]%nat
  /\ (1024 | 65536)
  /\ hash_function 1024 unit_features two_phase_gen
     = (Ok (mkTensor [1; 1]%nat
              (map (fun bits => (fold_segment 16 bits * 256 + fold_segment 24 bits) mod 1024)
                   (sign_rows (drawn_basis two_phase_gen 1) unit_features))),
        mkGen (samples two_phase_gen) (consumed two_phase_gen + 1 * 32)).
Proof.
  assert (Hdiv : (1024 | 65536)) by (exists 64; reflexivity).
  split; [reflexivity|]. split; [exact Hdiv|].
  apply hash_function_ignores_leading_digits; [reflexivity|discriminate|exact Hdiv].
Defined.

Lemma hash_function_zero_features_witness :
  Forall (fun q => q == 0)%Q (data zero_features)
  /\ fst (hash_function 1024 zero_features two_phase_gen)
     = Ok (mkTensor [1; 2]%nat (replicate (1 * 2) 0)).
Proof.
  assert (Hzero : Forall (fun q => q == 0)%Q (data zero_features))
    by (repeat constructor).
  split; [exact Hzero|].
  apply (hash_function_zero_features 1024 zero_features two_phase_gen 1 2 2);
    [reflexivity|discriminate|exact Hzero].
Defined.

Lemma hash_function_draws_and_shape_witness :
  last (shape pair_features) = Some 4%nat
  /\ snd (hash_function 1024 pair_features two_phase_gen)
     = mkGen (samples two_phase_gen) (consumed two_phase_gen + 4 * 32).
Proof.
  split; [reflexivity|].
  exact (proj1 (hash_function_draws_and_shape 1024 pair_features two_phase_gen 4 eq_refl)).
Defined.


Lemma combine_features_rows_witness :
  combine_features [short_vector; square_matrix]
  = Ok (mkTensor [1; 3; 2]%nat [1; 2; 3; 4; 5; 6]%Q).
Proof.
  apply (combine_features_rows short_vector [square_matrix] 2).
  constructor; [left; reflexivity|].
  constructor; [right; exists 2%nat; reflexivity|constructor].
Defined.

Lemma combine_features_length_mismatch_witness :
  shape short_vector = [2]%nat /\ shape long_vector = [3]%nat
  /\ combine_features [short_vector; square_matrix; long_vector] = Raise RuntimeError.
Proof.
  split; [reflexivity|]. split; [reflexivity|].
  apply (combine_features_length_mismatch short_vector long_vector
           [square_matrix; long_vector] 2 3);
    [reflexivity|right; left|reflexivity|discriminate].
Defined.

Lemma hash_of_combined_features_witness :
  exists x idx,
    combine_features [short_vector; short_vector] = Ok x
    /\ fst (hash_function 1024 x two_phase_gen) = Ok idx
    /\ shape idx = [1; 2]%nat
    /\ length (data idx) = 2%nat
    /\ Forall (fun z => 0 <= z < 1024) (data idx).
Proof.
  apply (hash_of_combined_features 1024 short_vector [short_vector] 2 two_phase_gen);
    [discriminate|].
  repeat constructor.
Defined.


Lemma get_node_by_id_first_match_witness :
  b_nodes (builder_of saved_world) = PyList (map node_to_py (nodes saved_world))
  /\ snd (_get_node_by_id_any "node_1" (builder_of saved_world)) = builder_of saved_world
  /\ exists found, fst (_get_node_by_id_any "node_1" (builder_of saved_world)) = Ok found.
Proof.
  split; [reflexivity|].
  destruct (get_node_by_id_first_match "node_1" (builder_of saved_world)
              (map node_to_py (nodes saved_world)) eq_refl) as (Hstate & _ & Hreturns).
  split; [exact Hstate|]. apply Hreturns.
  constructor; [eexists; reflexivity|]. constructor; [eexists; reflexivity|constructor].
Defined.

Lemma process_text_aliases_witness :
  map (fun c => (c mod 256)%N) [65; 322]%N = map (fun c => (c mod 256)%N) [321; 66]%N
  /\ process_text small_processor [65; 322]%N = process_text small_processor [321; 66]%N.
Proof.
  split; [reflexivity|].
  apply process_text_aliases. reflexivity.
Defined.

Lemma process_text_padding_is_nul_witness :
  (length [72; 105]%N < max_text_length small_processor)%nat
  /\ process_text small_processor ([72; 105] ++ [256 * 0])%N
     = process_text small_processor [72; 105]%N.
Proof.
  assert (Hshort : (length [72; 105]%N < max_text_length small_processor)%nat)
    by (cbn; lia).
  split; [exact Hshort|].
  apply process_text_padding_is_nul. exact Hshort.
Defined.

Lemma flatten_json_key_collision_witness :
  _flatten_json (PyDict [("a", PyDict [("b", PyInt 1)]); ("a" +:+ "." +:+ "b", PyInt 2)]) ""
  = [("a" +:+ "." +:+ "b", PyInt 2)].
Proof.
  apply flatten_json_key_collision; [discriminate|reflexivity|reflexivity].
Defined.

Lemma process_json_null_and_false_witness :
  Forall (fun v => v = PyNone \/ v = PyBool false)
         (scalars (PyDict [("a", PyDict [("b", PyNone)]); ("c", PyList [PyBool false])]))
  /\ exists features,
       process_json example_platform small_processor
         (inr (PyDict [("a", PyDict [("b", PyNone)]); ("c", PyList [PyBool false])]))
       = Ok features
       /\ shape features = [4%nat]
       /\ length (data features) = 4%nat
       /\ Forall (fun q => q == 0)%Q (data features).
Proof.
  assert (Hscalars :
            Forall (fun v => v = PyNone \/ v = PyBool false)
                   (scalars (PyDict [("a", PyDict [("b", PyNone)]);
                                     ("c", PyList [PyBool false])]))).
  { constructor; [left; reflexivity|]. constructor; [right; reflexivity|constructor]. }
  split; [exact Hscalars|].
  apply (process_json_null_and_false example_platform small_processor); [cbn; lia|].
  exact Hscalars.
Defined.

Lemma process_file_byte_histogram_witness :
  contains "image" "application/octet-stream" = false
  /\ contains "json" "application/octet-stream" = false
  /\ contains "text" "application/octet-stream" = false
  /\ exists hist,
       process_file example_platform default_processor small_file
         "application/octet-stream" = Ok hist
       /\ shape hist = [512%nat]
       /\ length (data hist) = 512%nat
       /\ Forall (fun q => 0 <= q /\ q <= 1)%Q (data hist)
       /\ Forall (fun q => q = 0%Q) (drop 256 (data hist)).
Proof.
  split; [reflexivity|]. split; [reflexivity|]. split; [reflexivity|].
  apply (process_file_byte_histogram example_platform default_processor); reflexivity.
Defined.

Lemma process_file_order_blind_witness :
  small_file ≡ₚ shuffled_file
  /\ process_file example_platform default_processor small_file
       "application/octet-stream"
     = process_file example_platform default_processor shuffled_file
         "application/octet-stream".
Proof.
  assert (Hperm : small_file ≡ₚ shuffled_file) by apply Permutation_swap.
  split; [exact Hperm|].
  apply process_file_order_blind; [reflexivity|reflexivity|reflexivity|exact Hperm].
Defined.

Lemma delete_data_only_by_owner_witness :
  delete_data memory_client "processed_1" "0xA" example_manager
  = (Ok true,
     mkManager [("processed_2", [123; 125]%N)]
               [("processed_2", mkEntry "0xB" "2024-01-02T00:00:00")])
  /\ cache_get "processed_2" [("processed_2", mkEntry "0xB" "2024-01-02T00:00:00")]
     = cache_get "processed_2" (cache example_manager)
  /\ owned_by "processed_1" "0xA" (cache example_manager) = true.
Proof.
  destruct (delete_data_only_by_owner memory_client "processed_1" "0xA" example_manager
              (mkManager [("processed_2", [123; 125]%N)]
                         [("processed_2", mkEntry "0xB" "2024-01-02T00:00:00")])
              (Ok true) eq_refl) as (Hothers & _ & Hdeleted).
  split; [reflexivity|]. split.
  - apply (Hothers "processed_2"). discriminate.
  - exact (proj1 (Hdeleted eq_refl)).
Defined.

Lemma retrieve_list_data_fails_witness :
  owned_by "processed_1" "0xA" (cache example_manager) = true
  /\ retrieve_processed_data example_platform memory_client "processed_1" "0xA"
       example_manager
     = (UnboundName "metadata", example_manager).
Proof.
  split; [reflexivity|].
  exact (retrieve_list_data_fails example_platform memory_client "processed_1" "0xA"
           example_manager (walrus example_manager) 123%N [125%N]
           [("data", PyList [PyInt 1; PyInt 2]); ("user_address", PyStr "0xA")]
           (PyList [PyInt 1; PyInt 2]) eq_refl eq_refl eq_refl eq_refl eq_refl).
Defined.

Lemma stored_data_is_private_witness :
  let self1 := snd (store_processed_data example_platform memory_client
                      "2024-01-03T00:00:00" "3" (PyList [PyInt 1]) "0xA" None None
                      example_manager) in
  store_processed_data example_platform memory_client "2024-01-03T00:00:00" "3"
    (PyList [PyInt 1]) "0xA" None None example_manager
  = (Ok "processed_3", self1)
  /\ retrieve_processed_data example_platform memory_client "processed_3" "0xB" self1
     = (NotFound, self1)
  /\ delete_data memory_client "processed_3" "0xB" self1 = (Ok false, self1).
Proof.
  intros self1.
  assert (Hstore : store_processed_data example_platform memory_client
                     "2024-01-03T00:00:00" "3" (PyList [PyInt 1]) "0xA" None None
                     example_manager = (Ok "processed_3", self1)) by reflexivity.
  destruct (stored_data_is_private example_platform memory_client "2024-01-03T00:00:00" "3"
              (PyList [PyInt 1]) "0xA" "0xB" None None example_manager self1
              "processed_3" Hstore ltac:(discriminate))
    as (_ & _ & Hretrieve & Hdelete).
  split; [exact Hstore|]. split; [exact Hretrieve|exact Hdelete].
Defined.
